(** * Rin: AI invocation layer and configuration service

    A shallow embedding of [server/src/utils/ai.ts] (model registry,
    provider clients, dispatcher, error classifier) and of
    [server/src/services/config.ts] (configuration routes), with the
    properties of the specification stated over it.

    Conventions of the embedding.
    - A JavaScript string is a [string]; one character of the model stands
      for one UTF-16 code unit of the program.
    - A JavaScript value of unknown shape ([any]) is a [value].
    - A plain object used as a dictionary is a [gmap string value] holding
      its own properties. Property names that every plain object inherits
      from [Object.prototype] are written out where the code reads or
      writes a property under a name chosen by the caller.
    - Code that calls the inference runtime or [fetch] runs in the monad
      [M]: it threads the list of calls made so far and either returns or
      throws. Console output is not part of the model. *)

From Stdlib Require Import ZArith Ascii DecimalString.
From Stdlib Require QArith.
From stdpp Require Import gmap strings list fin_maps.

Local Open Scope Z_scope.

Set Warnings "-register-all".

(** ** Strings *)

Module Str.

(** [s.length] *)
Definition length (s : string) : nat := String.length s.

(** [s.startsWith(p)] *)
Definition startsWith (s p : string) : bool := String.prefix p s.

(** [s.includes(sub)] *)
Fixpoint includes (s sub : string) : bool :=
  String.prefix sub s ||
  match s with
  | EmptyString => false
  | String _ s' => includes s' sub
  end.

Fixpoint drop (n : nat) (s : string) : string :=
  match n, s with
  | O, _ => s
  | S n', String _ s' => drop n' s'
  | S _, EmptyString => EmptyString
  end.

(** [s.slice(0, n)] for [n >= 0] *)
Fixpoint slice0 (n : nat) (s : string) : string :=
  match n, s with
  | S n', String c s' => String c (slice0 n' s')
  | _, _ => EmptyString
  end.

(** [s.replace(pat, rep)] with a string pattern: the first occurrence
    only. ([rep] is taken literally; the code passes the empty string.) *)
Fixpoint replace (s pat rep : string) : string :=
  if String.prefix pat s then rep +:+ drop (String.length pat) s
  else match s with
       | EmptyString => EmptyString
       | String c s' => String c (replace s' pat rep)
       end.

(** Decimal rendering of a non-negative integer, as a template literal
    prints it. *)
Definition of_N (n : N) : string := NilZero.string_of_uint (N.to_uint n).

Definition is_space (c : ascii) : bool :=
  let n := Ascii.nat_of_ascii c in
  ((9 <=? n)%nat && (n <=? 13)%nat) || (n =? 32)%nat.

Fixpoint trimStart (s : string) : string :=
  match s with
  | String c s' => if is_space c then trimStart s' else s
  | EmptyString => EmptyString
  end.

Fixpoint rev_onto (s acc : string) : string :=
  match s with
  | EmptyString => acc
  | String c s' => rev_onto s' (String c acc)
  end.

Definition rev (s : string) : string := rev_onto s EmptyString.

(** [s.trim()], over the white space of the ASCII range *)
Definition trim (s : string) : string := rev (trimStart (rev (trimStart s))).

Definition nonempty (s : string) : bool :=
  match s with EmptyString => false | _ => true end.

End Str.

(** ** JavaScript values *)

Inductive value : Type :=
| VUndefined
| VNull
| VBool (b : bool)
| VNum (z : Z)
| VStr (s : string)
| VArr (items : list value)
| VObj (fields : list (string * value))
| VBuiltin (name : string).

(** [VNum] carries the integers; [VObj] lists the own enumerable properties
    of a plain object in enumeration order, each name once; [VBuiltin name]
    is the built-in function that [Object.prototype] holds under [name]. *)

(** [!!v] *)
Definition truthy (v : value) : bool :=
  match v with
  | VUndefined | VNull => false
  | VBool b => b
  | VNum z => negb (z =? 0)
  | VStr s => Str.nonempty s
  | VArr _ | VObj _ | VBuiltin _ => true
  end.

Inductive jstype := TUndefined | TObject | TBoolean | TNumber | TString | TFunction.

(** [typeof v] *)
Definition typeof (v : value) : jstype :=
  match v with
  | VUndefined => TUndefined
  | VNull | VArr _ | VObj _ => TObject
  | VBool _ => TBoolean
  | VNum _ => TNumber
  | VStr _ => TString
  | VBuiltin _ => TFunction
  end.

Definition jstype_eqb (a b : jstype) : bool :=
  match a, b with
  | TUndefined, TUndefined | TObject, TObject | TBoolean, TBoolean
  | TNumber, TNumber | TString, TString | TFunction, TFunction => true
  | _, _ => false
  end.

Fixpoint assoc {A} (k : string) (l : list (string * A)) : option A :=
  match l with
  | [] => None
  | (k', v) :: l' => if String.eqb k k' then Some v else assoc k l'
  end.

(** [a || b] *)
Definition or_else (a b : value) : value := if truthy a then a else b.

(** [a || b] on two strings *)
Definition str_or (a b : string) : string := if Str.nonempty a then a else b.

(** The names every plain object inherits from [Object.prototype]. All of
    them hold a built-in function, except [__proto__], an accessor that
    reads as [Object.prototype] itself. *)
Definition Object_prototype_names : list string :=
  [ "constructor"; "__defineGetter__"; "__defineSetter__"; "hasOwnProperty";
    "__lookupGetter__"; "__lookupSetter__"; "isPrototypeOf";
    "propertyIsEnumerable"; "toString"; "valueOf"; "__proto__";
    "toLocaleString" ].

Definition inherited (k : string) : bool :=
  bool_decide (k ∈ Object_prototype_names).

(** [Object.prototype] has no enumerable property: where only those count
    it is the empty object. *)
Definition Object_prototype : value := VObj [].

(** [table[k]] on an object literal whose own properties are the strings
    of [table]. *)
Definition literal_get (table : gmap string string) (k : string) : value :=
  match table !! k with
  | Some s => VStr s
  | None =>
      if String.eqb k "__proto__" then Object_prototype
      else if inherited k then VBuiltin k
      else VUndefined
  end.

(** ** Text of a value *)

Definition dquote : string := String (ascii_of_nat 34) EmptyString.
Definition backslash : string := String (ascii_of_nat 92) EmptyString.
Definition newline : string := String (ascii_of_nat 10) EmptyString.

Definition of_Z (z : Z) : string :=
  if z <? 0 then "-" +:+ Str.of_N (Z.to_N (- z)) else Str.of_N (Z.to_N z).

Fixpoint join (sep : string) (l : list string) : string :=
  match l with
  | [] => EmptyString
  | [s] => s
  | s :: l' => s +:+ sep +:+ join sep l'
  end.

(** The name a built-in of [Object.prototype] prints under. *)
Definition builtin_name (k : string) : string :=
  if String.eqb k "constructor" then "Object" else k.

(** Conversion to a string, as a template literal does it. *)
Fixpoint to_string (v : value) : string :=
  match v with
  | VUndefined => "undefined"
  | VNull => "null"
  | VBool true => "true"
  | VBool false => "false"
  | VNum z => of_Z z
  | VStr s => s
  | VArr items =>
      join "," ((fix each (l : list value) : list string :=
                   match l with
                   | [] => []
                   | (VUndefined | VNull) :: l' => EmptyString :: each l'
                   | x :: l' => to_string x :: each l'
                   end) items)
  | VObj _ => "[object Object]"
  | VBuiltin k => "function " +:+ builtin_name k +:+ "() { [native code] }"
  end.

Definition hex_digit (n : nat) : ascii :=
  ascii_of_nat (if (n <? 10)%nat then 48 + n else 87 + n)%nat.

Definition escape_char (c : ascii) : string :=
  let n := nat_of_ascii c in
  if (n =? 34)%nat then backslash +:+ dquote
  else if (n =? 92)%nat then backslash +:+ backslash
  else if (n =? 8)%nat then backslash +:+ "b"
  else if (n =? 9)%nat then backslash +:+ "t"
  else if (n =? 10)%nat then backslash +:+ "n"
  else if (n =? 12)%nat then backslash +:+ "f"
  else if (n =? 13)%nat then backslash +:+ "r"
  else if (n <? 32)%nat then
    backslash +:+ "u00" +:+
    String (hex_digit (n / 16)) (String (hex_digit (n mod 16)) EmptyString)
  else String c EmptyString.

Fixpoint escape (s : string) : string :=
  match s with
  | EmptyString => EmptyString
  | String c s' => escape_char c +:+ escape s'
  end.

Definition quote (s : string) : string := dquote +:+ escape s +:+ dquote.

(** [JSON.stringify(v)]; [None] where JavaScript yields [undefined]. *)
Fixpoint stringify (v : value) : option string :=
  match v with
  | VUndefined | VBuiltin _ => None
  | VNull => Some "null"
  | VBool true => Some "true"
  | VBool false => Some "false"
  | VNum z => Some (of_Z z)
  | VStr s => Some (quote s)
  | VArr items =>
      Some ("[" +:+
            join "," ((fix each (l : list value) : list string :=
                         match l with
                         | [] => []
                         | x :: l' => default "null" (stringify x) :: each l'
                         end) items) +:+ "]")
  | VObj fields =>
      Some ("{" +:+
            join "," ((fix each (l : list (string * value)) : list string :=
                         match l with
                         | [] => []
                         | (k, x) :: l' =>
                             match stringify x with
                             | Some t => (quote k +:+ ":" +:+ t) :: each l'
                             | None => each l'
                             end
                         end) fields) +:+ "}")
  end.

(** For an array or an object the serialization is always a string. *)
Definition JSON_stringify (v : value) : string := default "undefined" (stringify v).


(** ** Calls to the outside, and the monad of the provider code *)

(** A thrown [Error]; the code only ever reads its [message]. *)
Record exn := Error { message : string }.

Inductive outcome (A : Type) : Type :=
| Return (a : A)
| Throw (e : exn).
Arguments Return {A} a.
Arguments Throw {A} e.

Record ChatMessage := { role : string; content : string }.

(** The object handed to [JSON.stringify] for the request body. *)
Record ChatBody := {
  cb_model : string;
  cb_messages : list ChatMessage;
  max_tokens : Z;
  temperature : QArith_base.Q
}.

Record Request := {
  url : string;
  method : string;
  headers : list (string * string);
  body : ChatBody
}.

(** What the code reads of a [fetch] response: [status], the body as
    [text()] gives it, and the body as [json()] parses it (or fails to). *)
Record Response := {
  status : N;
  text : string;
  json : outcome value
}.

(** [response.ok] *)
Definition ok (r : Response) : bool := (200 <=? status r)%N && (status r <=? 299)%N.

(** The inference runtime bound as [env.AI] and the global [fetch]. A
    failing call throws an [Error]. *)
Record Host := {
  AI_run : value -> list ChatMessage -> outcome value;
  fetch : Request -> outcome Response
}.

Inductive event : Type :=
| CallAI (modelId : value) (messages : list ChatMessage)
| CallFetch (req : Request).

(** A computation takes the calls made so far and gives its outcome with
    the calls made by its end, latest last. *)
Definition M (A : Type) : Type := list event -> outcome A * list event.

Definition ret {A} (a : A) : M A := fun t => (Return a, t).

Definition throw {A} (msg : string) : M A := fun t => (Throw (Error msg), t).

Definition bind {A B} (m : M A) (k : A -> M B) : M B :=
  fun t => match m t with
           | (Return a, t') => k a t'
           | (Throw e, t') => (Throw e, t')
           end.

Definition try_catch {A} (m : M A) (handler : exn -> M A) : M A :=
  fun t => match m t with
           | (Return a, t') => (Return a, t')
           | (Throw e, t') => handler e t'
           end.

Definition lift {A} (o : outcome A) : M A := fun t => (o, t).

Notation "'do' x <- m ; k" := (bind m (fun x => k))
  (at level 10, x name, m at level 100, k at level 200).

Definition run {A} (m : M A) : outcome A * list event := m [].

(** ** Model registry *)

Definition AI_PROVIDER_URLS : gmap string string :=
  list_to_map
    [ ("openai", "https://api.openai.com/v1");
      ("claude", "https://api.anthropic.com/v1");
      ("gemini", "https://generativelanguage.googleapis.com/v1beta/openai");
      ("deepseek", "https://api.deepseek.com/v1") ].

Definition WORKER_AI_MODELS_entries : list (string * string) :=
  [ ("llama-3-8b", "@cf/meta/llama-3-8b-instruct");
    ("llama-3-1-8b", "@cf/meta/llama-3.1-8b-instruct");
    ("llama-2-7b", "@cf/meta/llama-2-7b-chat-int8");
    ("mistral-7b", "@cf/mistral/mistral-7b-instruct-v0.1");
    ("mistral-7b-v2", "@cf/mistral/mistral-7b-instruct-v0.2-lora");
    ("gemma-2b", "@cf/google/gemma-2b-it-lora");
    ("gemma-7b", "@cf/google/gemma-7b-it-lora");
    ("deepseek-coder", "@cf/deepseek-ai/deepseek-coder-6.7b-base-awq");
    ("qwen-7b", "@cf/qwen/qwen1.5-7b-chat-awq") ].

Definition WORKER_AI_MODELS : gmap string string :=
  list_to_map WORKER_AI_MODELS_entries.

(** [WORKER_AI_MODELS[shortName] || shortName] *)
Definition getWorkerAIModelId (shortName : string) : value :=
  or_else (literal_get WORKER_AI_MODELS shortName) (VStr shortName).

(** [Object.keys(WORKER_AI_MODELS)] for the in-runtime provider, nothing
    for any other. *)
Definition getAvailableModels (provider : string) : list string :=
  if String.eqb provider "worker-ai" then map fst WORKER_AI_MODELS_entries
  else [].

Definition requiresApiKey (provider : string) : bool :=
  negb (String.eqb provider "worker-ai").

(** ** In-runtime client: normalization of the result *)

(** [k in v] and [v.k] for the four field names the client asks about.
    None of them is inherited by a plain object or an array, so on an
    object they are own properties and on an array they are absent. *)
Definition has_field (k : string) (v : value) : bool :=
  match v with
  | VObj fields => bool_decide (is_Some (assoc k fields))
  | _ => false
  end.

Definition get_field (k : string) (v : value) : value :=
  match v with
  | VObj fields => default VUndefined (assoc k fields)
  | _ => VUndefined
  end.

(** The part of [executeWorkerAI] after the call returned. *)
Definition normalize (responseObj : value) : value :=
  if truthy responseObj && jstype_eqb (typeof responseObj) TObject then
    if has_field "response" responseObj then get_field "response" responseObj
    else if has_field "content" responseObj then get_field "content" responseObj
    else if has_field "output" responseObj then get_field "output" responseObj
    else if has_field "result" responseObj then get_field "result" responseObj
    else VStr (JSON_stringify responseObj)
  else if jstype_eqb (typeof responseObj) TString then responseObj
  else VNull.

(** ** Configuration records *)

(** The stored AI configuration, as [getAIConfig] returns it. *)
Record AIConfig := {
  enabled : bool;
  provider : string;
  model : string;
  api_key : string;
  api_url : string
}.

(** The configuration of a test invocation; the key and the URL may be
    left out. *)
Record TestConfig := {
  tc_provider : string;
  tc_model : string;
  tc_api_key : option string;
  tc_api_url : option string
}.

(** The configuration [executeExternalAI] destructures. *)
Record ExternalConfig := {
  x_provider : string;
  x_model : string;
  x_api_key : string;
  x_api_url : string
}.

Definition external_of_stored (config : AIConfig) : ExternalConfig :=
  {| x_provider := provider config; x_model := model config;
     x_api_key := api_key config; x_api_url := api_url config |}.

Record TestResult := {
  success : bool;
  response : option value;
  error : option string;
  details : option string
}.

(** ** Error classifier *)

Definition processAIError (err : exn) (model provider : string) : TestResult :=
  let originalMessage := str_or (message err) "Unknown error" in
  let '(errorMessage, errorDetails) :=
    if Str.includes originalMessage "fetch failed"
       || Str.includes originalMessage "NetworkError" then
      ("Network error: Unable to connect to AI service",
       "Please check your API URL and network connection.")
    else if Str.includes originalMessage "401"
            || Str.includes originalMessage "Unauthorized" then
      ("Authentication failed: Invalid API key",
       "Please check your API key is correct and not expired.")
    else if Str.includes originalMessage "429" then
      ("Rate limit exceeded", "Too many requests. Please wait a moment.")
    else if Str.includes originalMessage "404" then
      ("Model not found",
       "Model " +:+ dquote +:+ model +:+ dquote +:+ " not found for provider "
         +:+ dquote +:+ provider +:+ dquote +:+ ".")
    else if Str.includes originalMessage "500"
            || Str.includes originalMessage "503" then
      ("AI service temporarily unavailable",
       "Service is experiencing issues. Please try again later.")
    else if Str.includes originalMessage "Invalid" then
      ("AI model error: " +:+ originalMessage,
       "Model " +:+ dquote +:+ model +:+ dquote
         +:+ " may not be supported. Please verify the model ID.")
    else (originalMessage, EmptyString) in
  {| success := false;
     response := None;
     error := Some errorMessage;
     details := Some (str_or errorDetails ("Original: " +:+ originalMessage)) |}.

(** ** External client: reading the completion out of the parsed body *)

(** [v.k] for the names [choices], [message] and [content]: own
    properties of an object, absent from every other value; reading a
    property of [null] or [undefined] throws. *)
Definition member (v : value) (k : string) : outcome value :=
  match v with
  | VUndefined =>
      Throw (Error ("Cannot read properties of undefined (reading '" +:+ k +:+ "')"))
  | VNull =>
      Throw (Error ("Cannot read properties of null (reading '" +:+ k +:+ "')"))
  | VObj fields => Return (default VUndefined (assoc k fields))
  | _ => Return VUndefined
  end.

(** [v[0]] *)
Definition index0 (v : value) : value :=
  match v with
  | VArr (x :: _) => x
  | VObj fields => default VUndefined (assoc "0" fields)
  | VStr (String c _) => VStr (String c EmptyString)
  | _ => VUndefined
  end.

Definition nullish (v : value) : bool :=
  match v with VUndefined | VNull => true | _ => false end.

(** [data.choices?.[0]?.message?.content?.trim() || null] *)
Definition extract_content (data : value) : outcome value :=
  match member data "choices" with
  | Throw e => Throw e
  | Return choices =>
      if nullish choices then Return VNull else
      let first := index0 choices in
      if nullish first then Return VNull else
      match member first "message" with
      | Throw e => Throw e
      | Return msg =>
          if nullish msg then Return VNull else
          match member msg "content" with
          | Throw e => Throw e
          | Return c =>
              match c with
              | VUndefined | VNull => Return VNull
              | VStr s => Return (or_else (VStr (Str.trim s)) VNull)
              | _ =>
                  Throw (Error "data.choices?.[0]?.message?.content?.trim is not a function")
              end
          end
      end
  end.

Section Providers.

Variable host : Host.

Definition env_AI_run (modelId : value) (messages : list ChatMessage) : M value :=
  fun t => (AI_run host modelId messages, t ++ [CallAI modelId messages]).

Definition do_fetch (req : Request) : M Response :=
  fun t => (fetch host req, t ++ [CallFetch req]).

Definition executeWorkerAI (modelId : value) (input : string) : M value :=
  do response <- env_AI_run modelId [ {| role := "user"; content := input |} ];
  ret (normalize response).

(** *** External client *)

(** The two arguments of the [fetch] call, as one request. *)
Definition chat_request (finalApiUrl : value) (config : ExternalConfig)
    (input : string) : Request :=
  {| url := to_string finalApiUrl +:+ "/chat/completions";
     method := "POST";
     headers :=
       [ ("Content-Type", "application/json");
         ("Authorization", "Bearer " +:+ x_api_key config) ];
     body :=
       {| cb_model := x_model config;
          cb_messages := [ {| role := "user"; content := input |} ];
          max_tokens := 500;
          temperature := QArith_base.Qmake 3 10 |} |}.

(** [api_url || AI_PROVIDER_URLS[provider]] *)
Definition finalApiUrl (config : ExternalConfig) : value :=
  or_else (VStr (x_api_url config))
          (literal_get AI_PROVIDER_URLS (x_provider config)).

Definition executeExternalAI (config : ExternalConfig) (input : string) : M value :=
  if negb (Str.nonempty (x_api_key config)) then throw "API key not configured"
  else
    if negb (truthy (finalApiUrl config)) then throw "API URL not configured"
    else
      do response <- do_fetch (chat_request (finalApiUrl config) config input);
      if negb (ok response) then
        let errorText := text response in
        throw ("API error " +:+ Str.of_N (status response) +:+ ": " +:+ errorText)
      else
        do data <- lift (json response);
        lift (extract_content data).

(** *** Dispatcher *)

(** The configuration [testAIModel] hands to the external client. *)
Definition external_of_test (config : TestConfig) : ExternalConfig :=
  {| x_provider := tc_provider config;
     x_model := tc_model config;
     x_api_key := str_or (default EmptyString (tc_api_key config)) EmptyString;
     x_api_url := str_or (default EmptyString (tc_api_url config)) EmptyString |}.

(** The body of the [try] block of [testAIModel], up to the call. *)
Definition test_dispatch (config : TestConfig) (testPrompt : string) : M value :=
  if String.eqb (tc_provider config) "worker-ai" then
    let fullModelName := getWorkerAIModelId (tc_model config) in
    executeWorkerAI fullModelName testPrompt
  else
    executeExternalAI (external_of_test config) testPrompt.

Definition testAIModel (config : TestConfig) (testPrompt : string) : M TestResult :=
  try_catch
    (do result <- test_dispatch config testPrompt;
     if truthy result then
       ret {| success := true; response := Some result;
              error := None; details := None |}
     else
       ret {| success := false; response := None;
              error := Some "Empty response from AI"; details := None |})
    (fun err => ret (processAIError err (tc_model config) (tc_provider config))).

Definition maxContentLength : nat := N.to_nat 8000.

Definition truncate (content : string) : string :=
  if (maxContentLength <? Str.length content)%nat
  then Str.slice0 maxContentLength content +:+ "..."
  else content.

Definition SUMMARY_INSTRUCTION : string :=
  "请用简洁的中文总结以下内容，不超过200字：" +:+ newline +:+ newline.

(** The body of the [try] block of [generateAISummary]. *)
Definition summary_dispatch (config : AIConfig) (truncatedContent : string) : M value :=
  if String.eqb (provider config) "worker-ai" then
    let fullModelName := getWorkerAIModelId (model config) in
    executeWorkerAI fullModelName (SUMMARY_INSTRUCTION +:+ truncatedContent)
  else
    executeExternalAI (external_of_stored config) truncatedContent.

(** [generateAISummary]; [config] is what [getAIConfig(db)] gave, read
    before the [try] block is entered. *)
Definition generateAISummary (config : AIConfig) (content : string) : M value :=
  if negb (enabled config) then ret VNull
  else
    let truncatedContent := truncate content in
    try_catch (summary_dispatch config truncatedContent)
              (fun _ => ret VNull).

End Providers.

(** ** Configuration service *)

Definition SENSITIVE_FIELDS : list string := [ "ai_summary.api_key" ].

Definition AI_CONFIG_KEYS : list string :=
  [ "ai_summary.enabled"; "ai_summary.provider"; "ai_summary.model";
    "ai_summary.api_key"; "ai_summary.api_url" ].

(** The entries of [CLIENT_CONFIG_ENV_DEFAULTS], in the order
    [Object.entries] lists them. *)
Definition CLIENT_CONFIG_ENV_DEFAULTS : list (string * string) :=
  [ ("site.name", "NAME");
    ("site.description", "DESCRIPTION");
    ("site.avatar", "AVATAR");
    ("site.page_size", "PAGE_SIZE") ].

Definition MASK : string := "••••••••".

(** [list.includes(key)] *)
Definition includes (l : list string) (key : string) : bool :=
  bool_decide (key ∈ l).

(** *** Plain objects built by the handlers

    An object created by [{}] has its own properties and a prototype,
    [Object.prototype] until it is replaced. [proto = None] is the
    initial prototype, [proto = Some v] the value [v] that replaced it. *)
Record PlainObject := {
  own : gmap string value;
  proto : option value
}.

Definition empty_object : PlainObject := {| own := ∅; proto := None |}.

(** [o[k] = v]. Every name creates or updates an own property except
    [__proto__]: while [Object.prototype] is on the prototype chain that
    name is its accessor, whose setter replaces the prototype when [v] is
    an object or [null] and does nothing for any other [v]. *)
Definition accessor_reachable (o : PlainObject) : bool :=
  match proto o with
  | Some VNull => false
  | Some (VObj fields) => negb (bool_decide (is_Some (assoc "__proto__" fields)))
  | _ => true
  end.

Definition assign (o : PlainObject) (k : string) (v : value) : PlainObject :=
  if String.eqb k "__proto__" && accessor_reachable o then
    match v with
    | VNull | VObj _ | VArr _ | VBuiltin _ => {| own := own o; proto := Some v |}
    | _ => o
    end
  else {| own := <[k := v]> (own o); proto := proto o |}.

Fixpoint indexed (i : N) (items : list value) : list (string * value) :=
  match items with
  | [] => []
  | x :: items' => (Str.of_N i, x) :: indexed (N.succ i) items'
  end.

(** The enumerable properties an object inherits through its prototype. *)
Definition inherited_entries (o : PlainObject) : gmap string value :=
  match proto o with
  | Some (VObj fields) => list_to_map fields
  | Some (VArr items) => list_to_map (indexed 0 items)
  | _ => ∅
  end.

(** The properties [for (key in o)] visits with the value [o[key]] reads:
    the own ones, then the inherited enumerable ones they do not hide. *)
Definition for_in (o : PlainObject) : gmap string value :=
  own o ∪ inherited_entries o.

(** [Object.keys(o).length > 0] *)
Definition has_own_keys (o : PlainObject) : bool :=
  negb (bool_decide (own o = ∅)).

Definition maskSensitiveFields (config : gmap string value) : PlainObject :=
  map_fold
    (fun key value result =>
       if includes SENSITIVE_FIELDS key && truthy value
       then assign result key (VStr MASK)
       else assign result key value)
    empty_object config.

Definition isAIConfigKey (key : string) : bool :=
  includes AI_CONFIG_KEYS key || Str.startsWith key "ai_summary.".

(** [result[key]] on the snapshot: an absent property reads [undefined]. *)
Definition read (m : gmap string value) (key : string) : value :=
  default VUndefined (m !! key).

Definition unset (v : value) : bool :=
  match v with
  | VUndefined | VStr EmptyString => true
  | _ => false
  end.

(** One round of the loop over [CLIENT_CONFIG_ENV_DEFAULTS]. *)
Definition apply_env_default (env result : gmap string value)
    (entry : string * string) : gmap string value :=
  let '(configKey, envKey) := entry in
  if unset (read result configKey) then
    let envValue := read env envKey in
    if truthy envValue then <[configKey := envValue]> result
    else result
  else result.

(** [getClientConfigWithDefaults]; [all] is the snapshot [clientConfig.all()]
    gave and [env] the environment bindings. *)
Definition getClientConfigWithDefaults (all env : gmap string value)
  : gmap string value :=
  let result := all in
  let result := foldl (apply_env_default env) result CLIENT_CONFIG_ENV_DEFAULTS in
  if unset (read result "site.page_size")
  then <["site.page_size" := VNum 5]> result
  else result.

(** *** Routes *)

(** What a handler answers: the status it set, if any, and what it
    returned. *)
Record Reply (A : Type) := { set_status : option N; returned : A }.
Arguments set_status {A} _.
Arguments returned {A} _.

Inductive payload : Type :=
| PText (s : string)
| PError (msg : string)
| PConfig (config : gmap string value)
| PTest (result : TestResult).

Record TestBody := {
  b_provider : option string;
  b_model : option string;
  b_api_url : option string;
  b_api_key : option string;
  b_testPrompt : option string
}.

(** [x || y] where [x] may be [undefined] *)
Definition opt_or (x : option string) (y : string) : string :=
  match x with
  | Some s => str_or s y
  | None => y
  end.

(** [x !== undefined ? x : y] *)
Definition opt_defined (x : option string) (y : string) : string :=
  match x with
  | Some s => s
  | None => y
  end.

(** The [testConfig] object of [POST /config/test-ai]. *)
Definition build_testConfig (body : TestBody) (config : AIConfig) : TestConfig :=
  {| tc_provider := opt_or (b_provider body) (provider config);
     tc_model := opt_or (b_model body) (model config);
     tc_api_url := Some (opt_defined (b_api_url body) (api_url config));
     tc_api_key := Some (opt_defined (b_api_key body) (api_key config)) |}.

Definition DEFAULT_TEST_PROMPT : string :=
  "Hello! This is a test message. Please respond with a simple greeting.".

(** [POST /config/test-ai]; [config] is what [getAIConfig(db)] gave. *)
Definition post_test_ai (host : Host) (admin : bool) (body : TestBody)
    (config : AIConfig) : M (Reply payload) :=
  if negb admin then
    ret {| set_status := Some 401%N; returned := PError "Unauthorized" |}
  else
    let testConfig := build_testConfig body config in
    let testPrompt := opt_or (b_testPrompt body) DEFAULT_TEST_PROMPT in
    do result <- testAIModel host testConfig testPrompt;
    ret {| set_status := None; returned := PTest result |}.

(** What the frontend reader of the AI configuration returns. *)
Record FrontendConfig := {
  f_enabled : bool;
  f_provider : string;
  f_model : string;
  f_api_url : string;
  api_key_set : bool
}.

(** Modelled from the spec: [getAIConfigForFrontend] of [utils/db-config],
    which is not among the sources. Read access to the AI configuration
    gives the ordinary fields and, in place of the key, a boolean telling
    whether a key is set; an empty key counts as not set. *)
Definition getAIConfigForFrontend (stored : AIConfig) : FrontendConfig :=
  {| f_enabled := enabled stored;
     f_provider := provider stored;
     f_model := model stored;
     f_api_url := api_url stored;
     api_key_set := Str.nonempty (api_key stored) |}.

(** [String(b)] *)
Definition String_of_bool (b : bool) : string := if b then "true" else "false".

(** [GET /config/:type]. [serverAll] and [clientAll] are the snapshots the
    two stores give, [stored] the AI configuration in the database. The
    returned object is sent as JSON, which carries its own properties. *)
Definition get_config (type : string) (admin : bool)
    (serverAll clientAll env : gmap string value) (stored : AIConfig)
  : Reply payload :=
  if negb (String.eqb type "server") && negb (String.eqb type "client") then
    {| set_status := Some 400%N; returned := PText "Invalid type" |}
  else if String.eqb type "server" && negb admin then
    {| set_status := Some 401%N; returned := PText "Unauthorized" |}
  else if String.eqb type "server" then
    let configObj := serverAll in
    let aiConfig := getAIConfigForFrontend stored in
    let configObj := <["ai_summary.enabled" := VStr (String_of_bool (f_enabled aiConfig))]> configObj in
    let configObj := <["ai_summary.provider" := VStr (f_provider aiConfig)]> configObj in
    let configObj := <["ai_summary.model" := VStr (f_model aiConfig)]> configObj in
    let configObj := <["ai_summary.api_url" := VStr (f_api_url aiConfig)]> configObj in
    let configObj :=
      <["ai_summary.api_key" := VStr (if api_key_set aiConfig then MASK else EmptyString)]>
        configObj in
    {| set_status := None; returned := PConfig (own (maskSensitiveFields configObj)) |}
  else
    let clientConfigData := getClientConfigWithDefaults clientAll env in
    let aiConfig := getAIConfigForFrontend stored in
    {| set_status := None;
       returned :=
         PConfig (<["ai_summary.enabled" := VBool (f_enabled aiConfig)]> clientConfigData) |}.

(** What [POST /config/:type] asks of its collaborators: the calls
    [config.set(key, value, false)] on the store of the namespace, one per
    key, whether [config.save()] ran, and the argument of [setAIConfig]
    when it is called. *)
Record Writes := {
  generic_writes : gmap string value;
  saved : bool;
  ai_writes : option PlainObject
}.

Definition no_writes : Writes :=
  {| generic_writes := ∅; saved := false; ai_writes := None |}.

(** The loop that separates the AI keys from the others: the pair
    [(regularConfig, aiConfigUpdates)]. *)
Definition separate (body : gmap string value) : PlainObject * PlainObject :=
  map_fold
    (fun key value '(regularConfig, aiConfigUpdates) =>
       if isAIConfigKey key then
         let nestedKey := Str.replace key "ai_summary." EmptyString in
         (regularConfig, assign aiConfigUpdates nestedKey value)
       else
         (assign regularConfig key value, aiConfigUpdates))
    (empty_object, empty_object) body.

(** [POST /config/:type] *)
Definition post_config (type : string) (admin : bool) (body : gmap string value)
  : Reply payload * Writes :=
  if negb (String.eqb type "server") && negb (String.eqb type "client") then
    ({| set_status := Some 400%N; returned := PText "Invalid type" |}, no_writes)
  else if negb admin then
    ({| set_status := Some 401%N; returned := PText "Unauthorized" |}, no_writes)
  else
    let '(regularConfig, aiConfigUpdates) := separate body in
    ({| set_status := None; returned := PText "OK" |},
     {| generic_writes := for_in regularConfig;
        saved := true;
        ai_writes :=
          if has_own_keys aiConfigUpdates then Some aiConfigUpdates else None |}).

(** [DELETE /config/cache]: the reply, and whether [cache.clear()] ran. *)
Definition delete_cache (admin : bool) : Reply payload * bool :=
  if negb admin then
    ({| set_status := Some 401%N; returned := PText "Unauthorized" |}, false)
  else ({| set_status := None; returned := PText "OK" |}, true).

(** * Statements

    Definitions used to state the properties: the sentences of the
    specification as predicates, and the inputs the examples run on. *)

(** ** In-runtime client *)

Definition FIELD_ORDER : list string := [ "response"; "content"; "output"; "result" ].

(** The first of the four fields the value has, if any. *)
Definition first_present (v : value) : option string :=
  List.find (fun k => has_field k v) FIELD_ORDER.

Definition is_object (v : value) : bool :=
  match v with VObj _ | VArr _ => true | _ => false end.

Definition is_string (v : value) : bool :=
  match v with VStr _ => true | _ => false end.

(** The last sentence of C3 for one value: [null] comes back exactly when
    the value is neither an object nor a string. *)
Definition null_exactly_when_shapeless (v : value) : Prop :=
  normalize v = VNull <-> (is_object v = false /\ is_string v = false).


(** ** Test invocation: the override configuration *)

(** C2 as it is written, for one request body and one stored
    configuration: for each of the four fields a value the caller supplied
    wins, the empty string included, and the stored value is used when the
    caller supplied none. *)
Definition supplied_value_wins (body : TestBody) (config : AIConfig) : Prop :=
  let tc := build_testConfig body config in
  tc_provider tc = opt_defined (b_provider body) (provider config) /\
  tc_model tc = opt_defined (b_model body) (model config) /\
  tc_api_url tc = Some (opt_defined (b_api_url body) (api_url config)) /\
  tc_api_key tc = Some (opt_defined (b_api_key body) (api_key config)).

Definition stored_openai : AIConfig :=
  {| enabled := true; provider := "openai"; model := "gpt-4o-mini";
     api_key := "sk-stored"; api_url := EmptyString |}.

Definition body_empty_provider : TestBody :=
  {| b_provider := Some EmptyString; b_model := None; b_api_url := None;
     b_api_key := None; b_testPrompt := None |}.

(** ** Provider calls *)

(** The prompt each call carried: the [content] of its user messages. *)
Definition prompts (t : list event) : list string :=
  flat_map
    (fun e => match e with
              | CallAI _ messages => map content messages
              | CallFetch req => map content (cb_messages (body req))
              end) t.

(** A runtime and a transport that fail on every call. *)
Definition failing_host : Host :=
  {| AI_run := fun _ _ => Throw (Error "fetch failed");
     fetch := fun _ => Throw (Error "fetch failed") |}.

(** A transport that answers every request with the given status and
    body. *)
Definition status_host (code : N) (text : string) : Host :=
  {| AI_run := fun _ _ => Throw (Error "no runtime");
     fetch := fun _ =>
       Return {| status := code; text := text;
                 json := Throw (Error "Unexpected token") |} |}.

Definition keyless_custom : ExternalConfig :=
  {| x_provider := "custom"; x_model := "m";
     x_api_key := EmptyString; x_api_url := EmptyString |}.

Definition keyed_custom : ExternalConfig :=
  {| x_provider := "custom"; x_model := "m";
     x_api_key := "sk-test"; x_api_url := EmptyString |}.

(** C4 as it is written, for one configuration: no request is made, the
    message is the one of the key when the key is empty, and the one of
    the URL when neither [api_url] nor a registered default gives one. *)
Definition precondition_messages (host : Host) (config : ExternalConfig)
    (input : string) : Prop :=
  (x_api_key config = EmptyString ->
   run (executeExternalAI host config input)
   = (Throw (Error "API key not configured"), [])) /\
  (x_api_url config = EmptyString ->
   AI_PROVIDER_URLS !! x_provider config = None ->
   run (executeExternalAI host config input)
   = (Throw (Error "API URL not configured"), [])).

Definition test_openai (key : string) : TestConfig :=
  {| tc_provider := "openai"; tc_model := "gpt-4o-mini";
     tc_api_key := Some key; tc_api_url := None |}.

Definition AUTH_FAILED : string := "Authentication failed: Invalid API key".

(** C5 as it is written, for one transport answering 401 with the body
    [text]: the client's message carries the status and the body, and
    the test invocation answers with the authentication category. *)
Definition unauthorized_is_auth_failure (text : string) : Prop :=
  forall res t,
    run (testAIModel (status_host 401 text) (test_openai "sk-test") "ping")
    = (Return res, t) ->
    success res = false /\ error res = Some AUTH_FAILED.

(** ** Configuration reads *)

(** What [maskSensitiveFields] stores under [key] for the value [v]. *)
Definition mask_value (key : string) (v : value) : value :=
  if includes SENSITIVE_FIELDS key && truthy v then VStr MASK else v.

(** The configuration a reply carries, when it carries one. *)
Definition config_of (r : Reply payload) : option (gmap string value) :=
  match returned r with
  | PConfig config => Some config
  | _ => None
  end.

(** The stored configuration with another key. *)
Definition with_api_key (stored : AIConfig) (key : string) : AIConfig :=
  {| enabled := enabled stored; provider := provider stored;
     model := model stored; api_key := key; api_url := api_url stored |}.

(** ** Configuration writes *)

Definition AI_PREFIX : string := "ai_summary.".

(** What the separating loop has established once the keys of [m] are
    processed: [regularConfig] holds the keys that are not AI keys,
    [aiConfigUpdates] the AI keys without their prefix, neither has an own
    property [__proto__], and a prototype is replaced only by the one key
    that names it. *)
Definition separated (m : gmap string value) (p : PlainObject * PlainObject) : Prop :=
  let '(regularConfig, aiConfigUpdates) := p in
  (forall k, k <> "__proto__" ->
     own regularConfig !! k = if isAIConfigKey k then None else m !! k) /\
  own regularConfig !! "__proto__" = None /\
  (m !! "__proto__" = None -> proto regularConfig = None) /\
  (forall n, n <> "__proto__" ->
     own aiConfigUpdates !! n = m !! (AI_PREFIX +:+ n)) /\
  own aiConfigUpdates !! "__proto__" = None /\
  (m !! (AI_PREFIX +:+ "__proto__") = None -> proto aiConfigUpdates = None).

Definition body_proto_key : gmap string value :=
  {[ "ai_summary.__proto__" := VStr "x" ]}.

(** ** Inputs of the examples *)

Definition body_empty_key : TestBody :=
  {| b_provider := None; b_model := None; b_api_url := None;
     b_api_key := Some EmptyString; b_testPrompt := None |}.

Definition content_first : value :=
  VObj [ ("content", VStr "hi"); ("result", VStr "late") ].

Definition denied : Response :=
  {| status := 401; text := "denied"; json := Throw (Error "Unexpected token") |}.

Definition env_acme : gmap string value := {[ "NAME" := VStr "Acme" ]}.

Definition body_model_and_name : gmap string value :=
  <[ "ai_summary.model" := VStr "llama-3-8b" ]> {[ "site.name" := VStr "Acme" ]}.

(** ** Further statements *)

(** The calls a computation made, counted. *)
Definition calls {A} (r : outcome A * list event) : nat := length (snd r).




(** A runtime returning [v] on every call. *)
Definition runtime_host (v : value) : Host :=
  {| AI_run := fun _ _ => Return v;
     fetch := fun _ => Throw (Error "fetch failed") |}.

(** The message the classifier works on: [error.message || 'Unknown error']. *)
Definition original_message (err : exn) : string :=
  str_or (message err) "Unknown error".

(** The trigger texts of the classifier, category by category. *)
Definition is_network (msg : string) : bool :=
  Str.includes msg "fetch failed" || Str.includes msg "NetworkError".
Definition is_auth (msg : string) : bool :=
  Str.includes msg "401" || Str.includes msg "Unauthorized".
Definition is_rate_limit (msg : string) : bool := Str.includes msg "429".
Definition is_not_found (msg : string) : bool := Str.includes msg "404".
Definition is_outage (msg : string) : bool :=
  Str.includes msg "500" || Str.includes msg "503".
Definition is_invalid (msg : string) : bool := Str.includes msg "Invalid".

(** The result of a test invocation that failed before any call. *)
Definition config_error (msg : string) : TestResult :=
  {| success := false; response := None; error := Some msg;
     details := Some ("Original: " +:+ msg) |}.

Definition test_custom (key url : option string) : TestConfig :=
  {| tc_provider := "custom"; tc_model := "m";
     tc_api_key := key; tc_api_url := url |}.




Definition keyed_proxy : ExternalConfig :=
  {| x_provider := "openai"; x_model := "gpt-4o-mini";
     x_api_key := "sk-test"; x_api_url := "https://proxy.example/v1" |}.

(** The request the external client sends to the base URL [base]. *)
Definition request_to (base : string) (config : ExternalConfig) (input : string)
  : Request :=
  {| url := base +:+ "/chat/completions";
     method := "POST";
     headers :=
       [ ("Content-Type", "application/json");
         ("Authorization", "Bearer " +:+ x_api_key config) ];
     body :=
       {| cb_model := x_model config;
          cb_messages := [ {| role := "user"; content := input |} ];
          max_tokens := 500;
          temperature := QArith_base.Qmake 3 10 |} |}.

(** The body of a failed answer contains none of the texts of the network
    and authentication categories. *)
Definition plain_body (text : string) : bool :=
  negb (is_network text || is_auth text).

(** The message of the client for a failed answer. *)
Definition api_error (code text : string) : string :=
  "API error " +:+ code +:+ ": " +:+ text.

(** ** Inputs of the further examples *)

Fixpoint repeat_char (n : nat) (c : ascii) : string :=
  match n with
  | O => EmptyString
  | S n' => String c (repeat_char n' c)
  end.

(** A content of 8001 units. *)
Definition long_content : string := repeat_char (N.to_nat 8001) (ascii_of_nat 97).

Definition slow_down : Response :=
  {| status := 429; text := "slow down"; json := Throw (Error "Unexpected token") |}.

Definition is_fetch (e : event) : bool :=
  match e with CallFetch _ => true | CallAI _ _ => false end.

Definition body_empty_key_openai : TestBody :=
  {| b_provider := Some "openai"; b_model := None; b_api_url := None;
     b_api_key := Some EmptyString; b_testPrompt := None |}.

(** * Properties *)

(** ** Model registry *)

Lemma known_alias_nonempty alias full :
  WORKER_AI_MODELS !! alias = Some full -> Str.nonempty full = true.
Proof.
  intros H. apply elem_of_list_to_map_2 in H.
  unfold WORKER_AI_MODELS_entries in H.
  repeat (apply elem_of_cons in H as [H|H]; [by inversion H|]).
  by apply elem_of_nil in H.
Qed.

(** A registered alias resolves to its registered identifier. *)
Lemma getWorkerAIModelId_known alias full :
  WORKER_AI_MODELS !! alias = Some full -> getWorkerAIModelId alias = VStr full.
Proof.
  intros H. unfold getWorkerAIModelId, literal_get, or_else. rewrite H. simpl.
  by rewrite (known_alias_nonempty _ _ H).
Qed.

(** A name that is neither registered nor inherited from
    [Object.prototype] comes back unchanged. *)
Lemma getWorkerAIModelId_unknown s :
  WORKER_AI_MODELS !! s = None -> inherited s = false ->
  getWorkerAIModelId s = VStr s.
Proof.
  intros H Hi. unfold getWorkerAIModelId, literal_get, or_else. rewrite H.
  destruct (String.eqb_spec s "__proto__") as [->|Hne].
  - by vm_compute in Hi.
  - by rewrite Hi.
Qed.

(** Only the in-runtime provider works without a key. *)
Lemma requiresApiKey_spec provider :
  requiresApiKey provider = false <-> provider = "worker-ai".
Proof.
  unfold requiresApiKey. destruct (String.eqb_spec provider "worker-ai"); simpl.
  - done.
  - split; [done|]. intros ->. done.
Qed.

(** C9, at the name [constructor]: it is not an alias of the registry,
    yet [getWorkerAIModelId] does not return it unchanged; it returns the
    function [Object.prototype] holds under that name, which is not a
    string at all. *)
Theorem getWorkerAIModelId_constructor :
  WORKER_AI_MODELS !! "constructor" = None /\
  getWorkerAIModelId "constructor" = VBuiltin "constructor" /\
  getWorkerAIModelId "constructor" <> VStr "constructor".
Proof. repeat split; by vm_compute. Qed.

(** ** In-runtime client *)

(** C3 fails on an object whose first present field holds [null]: the
    result is [null], although the value is an object, and the string under
    [content] is not returned. *)
Lemma normalize_null_field_counterexample :
  let v := VObj [ ("response", VNull); ("content", VStr "hi") ] in
  normalize v = VNull /\ ~ null_exactly_when_shapeless v.
Proof.
  split; [reflexivity|].
  intros [H _]. by destruct (H eq_refl).
Qed.

Lemma first_present_has v k : first_present v = Some k -> has_field k v = true.
Proof. intros H. by apply find_some in H as [_ H]. Qed.

Lemma normalize_object v :
  is_object v = true ->
  normalize v =
    match first_present v with
    | Some k => get_field k v
    | None => VStr (JSON_stringify v)
    end.
Proof.
  destruct v; try discriminate; intros _; [reflexivity|].
  unfold normalize, first_present, FIELD_ORDER. simpl.
  repeat (match goal with |- context [bool_decide ?P] => destruct (bool_decide P) end;
          simpl; try reflexivity).
Qed.

Lemma normalize_other v :
  is_object v = false -> normalize v = if is_string v then v else VNull.
Proof.
  destruct v as [| |[]|z|s| | |]; try done; intros _.
  - unfold normalize. simpl. by rewrite andb_false_r.
  - by destruct s.
Qed.

(** C3, amended: on an object the value of the first present field among
    [response], [content], [output], [result] is returned as it is; an
    object with none of them is serialized; a string is returned as it is;
    and [null] comes back exactly when the value is neither an object nor a
    string, or is an object whose first present field holds [null]. *)
Theorem normalize_spec (v : value) :
  (forall k, is_object v = true -> first_present v = Some k ->
             normalize v = get_field k v) /\
  (is_object v = true -> first_present v = None ->
   normalize v = VStr (JSON_stringify v)) /\
  (forall s, v = VStr s -> normalize v = VStr s) /\
  (normalize v = VNull <->
   (is_object v = false /\ is_string v = false) \/
   (is_object v = true /\
    exists k, first_present v = Some k /\ get_field k v = VNull)).
Proof.
  split; [|split; [|split]].
  - intros k Ho Hk. by rewrite normalize_object, Hk.
  - intros Ho Hk. by rewrite normalize_object, Hk.
  - intros s ->. by destruct s.
  - destruct (is_object v) eqn:Ho.
    + rewrite normalize_object by done.
      destruct (first_present v) as [k|] eqn:Hk; split.
      * intros H. right. eauto.
      * intros [[? _]|[_ (k' & [= <-] & H)]]; done.
      * done.
      * intros [[? _]|[_ (k' & ? & _)]]; done.
    + rewrite normalize_other by done.
      destruct (is_string v) eqn:Hs; split.
      * intros ->. done.
      * intros [[_ ?]|[? _]]; done.
      * intros _. by left.
      * done.
Qed.

(** ** Test invocation: the override configuration *)

(** C2 fails for an explicit empty [provider]: the stored provider is
    used, not the empty string the caller supplied. *)
Lemma build_testConfig_empty_provider_counterexample :
  tc_provider (build_testConfig body_empty_provider stored_openai) = "openai" /\
  ~ supplied_value_wins body_empty_provider stored_openai.
Proof.
  split; [reflexivity|]. intros [H _]. discriminate H.
Qed.

(** C2, amended: for [api_url] and [api_key] a value the caller supplied
    wins, the empty string included; for [provider] and [model] a non-empty
    value the caller supplied wins; in every other case the stored value is
    used. *)
Theorem build_testConfig_spec (body : TestBody) (config : AIConfig) :
  let tc := build_testConfig body config in
  (forall s, b_api_url body = Some s -> tc_api_url tc = Some s) /\
  (b_api_url body = None -> tc_api_url tc = Some (api_url config)) /\
  (forall s, b_api_key body = Some s -> tc_api_key tc = Some s) /\
  (b_api_key body = None -> tc_api_key tc = Some (api_key config)) /\
  (forall s, b_provider body = Some s -> s <> EmptyString -> tc_provider tc = s) /\
  (b_provider body = None \/ b_provider body = Some EmptyString ->
   tc_provider tc = provider config) /\
  (forall s, b_model body = Some s -> s <> EmptyString -> tc_model tc = s) /\
  (b_model body = None \/ b_model body = Some EmptyString ->
   tc_model tc = model config).
Proof.
  destruct body as [bp bm bu bk bt]; simpl.
  repeat split.
  - by intros s ->.
  - by intros ->.
  - by intros s ->.
  - by intros ->.
  - intros s -> Hs. by destruct s.
  - by intros [->| ->].
  - intros s -> Hs. by destruct s.
  - by intros [->| ->].
Qed.

(** The handler hands exactly that configuration to the test invocation. *)
Lemma post_test_ai_admin host body config :
  post_test_ai host true body config =
  (do result <- testAIModel host (build_testConfig body config)
                  (opt_or (b_testPrompt body) DEFAULT_TEST_PROMPT);
   ret {| set_status := None; returned := PTest result |}).
Proof. reflexivity. Qed.

(** ** Summary generation *)

Lemma slice0_length n s : (Str.length (Str.slice0 n s) <= n)%nat.
Proof.
  revert s. induction n as [|n IH]; intros [|c s]; simpl; try lia.
  specialize (IH s). lia.
Qed.

Lemma slice0_prefix n s : String.prefix (Str.slice0 n s) s = true.
Proof.
  revert s. induction n as [|n IH]; intros [|c s]; simpl; try done.
  destruct (Ascii.ascii_dec c c); [apply IH|done].
Qed.

(** The content handed on is the content itself when it has at most 8000
    units, and otherwise its first 8000 units followed by the marker. *)
Lemma truncate_spec content :
  ((Str.length content <= maxContentLength)%nat /\ truncate content = content) \/
  ((maxContentLength < Str.length content)%nat /\
   truncate content = Str.slice0 maxContentLength content +:+ "..." /\
   (Str.length (Str.slice0 maxContentLength content) <= maxContentLength)%nat /\
   String.prefix (Str.slice0 maxContentLength content) content = true).
Proof.
  unfold truncate. destruct (Nat.ltb_spec maxContentLength (Str.length content)).
  - right. auto using slice0_length, slice0_prefix.
  - left. auto.
Qed.

(** With the in-runtime provider the one call made carries the
    instruction followed by the truncated content. *)
Lemma generateAISummary_worker_ai host config content :
  enabled config = true -> provider config = "worker-ai" ->
  snd (run (generateAISummary host config content)) =
  [ CallAI (getWorkerAIModelId (model config))
           [ {| role := "user";
                content := SUMMARY_INSTRUCTION +:+ truncate content |} ] ].
Proof.
  intros He Hp. unfold generateAISummary, summary_dispatch. rewrite He, Hp. simpl.
  unfold run, try_catch, executeWorkerAI, bind, env_AI_run. simpl.
  by destruct (AI_run host _ _).
Qed.

(** Past its two checks the external client makes exactly one request,
    whatever the transport answers. *)
Lemma executeExternalAI_fetches host config input t :
  Str.nonempty (x_api_key config) = true ->
  truthy (finalApiUrl config) = true ->
  snd (executeExternalAI host config input t)
  = t ++ [ CallFetch (chat_request (finalApiUrl config) config input) ].
Proof.
  intros Hk Hu. unfold executeExternalAI. rewrite Hk, Hu. simpl.
  unfold bind, do_fetch.
  destruct (fetch host _) as [r|e]; [|reflexivity].
  destruct (ok r); simpl; [|reflexivity].
  unfold lift. destruct (json r); [|reflexivity].
  reflexivity.
Qed.

(** With any other provider that passes the two checks, the one request
    made carries the truncated content alone. *)
Lemma generateAISummary_external host config content :
  enabled config = true -> provider config <> "worker-ai" ->
  Str.nonempty (api_key config) = true ->
  truthy (finalApiUrl (external_of_stored config)) = true ->
  prompts (snd (run (generateAISummary host config content))) = [ truncate content ].
Proof.
  intros He Hp Hk Hu. unfold generateAISummary, summary_dispatch. rewrite He.
  apply String.eqb_neq in Hp. rewrite Hp. simpl.
  unfold run, try_catch.
  pose proof (executeExternalAI_fetches host (external_of_stored config)
                (truncate content) [] Hk Hu) as H.
  destruct (executeExternalAI _ _ _ _) as [[v|e] t']; simpl in *; by subst.
Qed.

(** C1, at an enabled configuration of the provider [openai]: the one
    request made carries the content alone as its prompt, without the
    summarization instruction that the in-runtime path puts before it. *)
Theorem generateAISummary_external_prompt (host : Host) :
  prompts (snd (run (generateAISummary host stored_openai "Hello"))) = [ "Hello" ] /\
  [ "Hello" ] <> [ SUMMARY_INSTRUCTION +:+ truncate "Hello" ].
Proof.
  split; [|by vm_compute].
  by rewrite generateAISummary_external.
Qed.

(** C6: summary generation always returns. With [enabled] false it
    returns [null] without any call to a provider, whatever the other
    fields are; and when the dispatch throws, after whatever calls it
    made, the result is [null]. *)
Theorem generateAISummary_never_throws (host : Host) (config : AIConfig)
    (content : string) :
  (exists v t, run (generateAISummary host config content) = (Return v, t)) /\
  (enabled config = false ->
   run (generateAISummary host config content) = (Return VNull, [])) /\
  (forall e t,
     enabled config = true ->
     run (summary_dispatch host config (truncate content)) = (Throw e, t) ->
     run (generateAISummary host config content) = (Return VNull, t)).
Proof.
  unfold generateAISummary, run, try_catch, ret.
  destruct (enabled config); simpl.
  - split; [|split; [done|]].
    + destruct (summary_dispatch _ _ _ _) as [[v|e] t]; eauto.
    + intros e t _ ->. reflexivity.
  - split; [eauto|]. split; [done|]. intros ? ? [=].
Qed.

(** ** External client: the two checks before the request *)

Lemma executeExternalAI_no_key host config input :
  x_api_key config = EmptyString ->
  run (executeExternalAI host config input)
  = (Throw (Error "API key not configured"), []).
Proof. intros H. unfold executeExternalAI. by rewrite H. Qed.

(** C4 fails where the key is empty and no URL can be resolved either:
    the message is the one of the key, not the one of the URL. *)
Lemma executeExternalAI_keyless_counterexample :
  run (executeExternalAI failing_host keyless_custom "ping")
  = (Throw (Error "API key not configured"), []) /\
  ~ precondition_messages failing_host keyless_custom "ping".
Proof.
  split; [reflexivity|]. intros [_ H].
  specialize (H eq_refl eq_refl). discriminate H.
Qed.

(** C4, amended: the external client fails before any request, with
    "API key not configured" whenever [api_key] is empty, and with
    "API URL not configured" whenever [api_key] is not empty, [api_url] is
    empty and the provider has no registered default URL, the provider
    not being a name that plain objects inherit. *)
Theorem executeExternalAI_preconditions (host : Host) (config : ExternalConfig)
    (input : string) :
  (x_api_key config = EmptyString ->
   run (executeExternalAI host config input)
   = (Throw (Error "API key not configured"), [])) /\
  (x_api_key config <> EmptyString ->
   x_api_url config = EmptyString ->
   AI_PROVIDER_URLS !! x_provider config = None ->
   inherited (x_provider config) = false ->
   run (executeExternalAI host config input)
   = (Throw (Error "API URL not configured"), [])).
Proof.
  split; [apply executeExternalAI_no_key|].
  intros Hk Hu Hp Hi. unfold executeExternalAI, finalApiUrl, literal_get, or_else.
  rewrite Hu, Hp, Hi.
  destruct (x_api_key config); [done|]. simpl.
  destruct (String.eqb_spec (x_provider config) "__proto__") as [E|_]; [|done].
  rewrite E in Hi. by vm_compute in Hi.
Qed.

(** ** Test invocation against a transport answering 401 *)

Lemma str_or_empty_r s : str_or s EmptyString = s.
Proof. by destruct s. Qed.

Lemma finalApiUrl_openai config :
  x_provider config = "openai" -> truthy (finalApiUrl config) = true.
Proof.
  intros H. unfold finalApiUrl, or_else. rewrite H.
  destruct (x_api_url config); by vm_compute.
Qed.

Lemma includes_after_api_error text :
  Str.includes ("API error 401: " +:+ text) "fetch failed"
  = Str.includes text "fetch failed" /\
  Str.includes ("API error 401: " +:+ text) "NetworkError"
  = Str.includes text "NetworkError" /\
  Str.includes ("API error 401: " +:+ text) "401" = true.
Proof. repeat split; reflexivity. Qed.

(** The client's failure on a non-success status: the message carries
    the status and the body, and one request was made. *)
Lemma executeExternalAI_status host config input resp :
  Str.nonempty (x_api_key config) = true ->
  truthy (finalApiUrl config) = true ->
  fetch host (chat_request (finalApiUrl config) config input) = Return resp ->
  ok resp = false ->
  run (executeExternalAI host config input)
  = (Throw (Error ("API error " +:+ Str.of_N (status resp) +:+ ": " +:+ text resp)),
     [ CallFetch (chat_request (finalApiUrl config) config input) ]).
Proof.
  intros Hk Hu Hf Hok. unfold executeExternalAI, run, bind, do_fetch.
  rewrite Hk, Hu. simpl. rewrite Hf, Hok. reflexivity.
Qed.

(** C5 fails when the body of the 401 answer contains "NetworkError":
    the network category comes first in the classifier. *)
Lemma testAIModel_401_counterexample :
  (exists res t,
     run (testAIModel (status_host 401 "NetworkError") (test_openai "sk-test") "ping")
     = (Return res, t) /\
     error res = Some "Network error: Unable to connect to AI service") /\
  ~ unauthorized_is_auth_failure "NetworkError".
Proof.
  assert (E : exists t,
    run (testAIModel (status_host 401 "NetworkError") (test_openai "sk-test") "ping")
    = (Return (processAIError (Error "API error 401: NetworkError")
                 "gpt-4o-mini" "openai"), t)).
  { eexists. vm_compute. reflexivity. }
  destruct E as [t E]. split.
  - exists (processAIError (Error "API error 401: NetworkError") "gpt-4o-mini" "openai"), t.
    split; [exact E|reflexivity].
  - intros H. destruct (H _ _ E) as [_ He]. discriminate He.
Qed.

(** C5, amended: in a test invocation with provider [openai] and a
    non-empty key, against a transport that answers 401, the external
    client fails with a message made of the status and the raw body; and
    the invocation answers [success: false] with
    "Authentication failed: Invalid API key" provided the body contains
    neither "fetch failed" nor "NetworkError". *)
Theorem testAIModel_unauthorized (host : Host) (config : TestConfig)
    (testPrompt key : string) (resp : Response) :
  tc_provider config = "openai" ->
  tc_api_key config = Some key ->
  key <> EmptyString ->
  (forall req, fetch host req = Return resp) ->
  status resp = 401%N ->
  (exists req,
     run (executeExternalAI host (external_of_test config) testPrompt)
     = (Throw (Error ("API error 401: " +:+ text resp)), [ CallFetch req ])) /\
  (Str.includes (text resp) "fetch failed" = false ->
   Str.includes (text resp) "NetworkError" = false ->
   exists res t,
     run (testAIModel host config testPrompt) = (Return res, t) /\
     success res = false /\ error res = Some AUTH_FAILED).
Proof.
  intros Hp Hk Hne Hf Hs.
  assert (Hkey : Str.nonempty (x_api_key (external_of_test config)) = true).
  { simpl. rewrite Hk. simpl. by destruct key. }
  assert (Hurl : truthy (finalApiUrl (external_of_test config)) = true).
  { by apply finalApiUrl_openai. }
  assert (Hok : ok resp = false) by (unfold ok; by rewrite Hs).
  pose proof (executeExternalAI_status host _ testPrompt resp Hkey Hurl (Hf _) Hok) as E.
  rewrite Hs in E.
  change ("API error " +:+ Str.of_N 401 +:+ ": " +:+ text resp)
    with ("API error 401: " +:+ text resp) in E.
  split; [eauto|].
  intros H1 H2. unfold testAIModel, test_dispatch, run, try_catch, bind.
  rewrite Hp. change ("openai" =? "worker-ai")%string with false. cbv iota.
  unfold run in E. rewrite E.
  eexists _, _. split; [reflexivity|].
  unfold processAIError. simpl message. unfold str_or. simpl Str.nonempty. cbv iota.
  destruct (includes_after_api_error (text resp)) as (-> & -> & ->).
  rewrite H1, H2. split; reflexivity.
Qed.

(** ** Client configuration: environment defaults *)

Lemma apply_env_default_ne env result ck ek k :
  k <> ck -> apply_env_default env result (ck, ek) !! k = result !! k.
Proof.
  intros Hne. unfold apply_env_default.
  destruct (unset _); [|done]. destruct (truthy _); [|done].
  by rewrite lookup_insert_ne.
Qed.

Lemma apply_env_default_eq env result ck ek :
  apply_env_default env result (ck, ek) !! ck =
  if unset (read result ck) && truthy (read env ek)
  then Some (read env ek) else result !! ck.
Proof.
  unfold apply_env_default.
  destruct (unset _); [|done]. destruct (truthy _); [|done].
  by rewrite lookup_insert_eq.
Qed.

Lemma read_ext (m m' : gmap string value) k : m !! k = m' !! k -> read m k = read m' k.
Proof. unfold read. by intros ->. Qed.

(** The loop, read at one of its keys. *)
Lemma env_defaults_lookup all env ck ek :
  (ck, ek) ∈ CLIENT_CONFIG_ENV_DEFAULTS ->
  foldl (apply_env_default env) all CLIENT_CONFIG_ENV_DEFAULTS !! ck =
  if unset (read all ck) && truthy (read env ek)
  then Some (read env ek) else all !! ck.
Proof.
  unfold CLIENT_CONFIG_ENV_DEFAULTS. intros H.
  repeat (apply elem_of_cons in H as [H|H]; [injection H as -> ->|]);
    [..|by apply elem_of_nil in H]; cbn [foldl].
  all: rewrite ?apply_env_default_ne by done; rewrite apply_env_default_eq.
  all: rewrite 1?(read_ext _ all) by (by rewrite !apply_env_default_ne).
  all: by rewrite ?apply_env_default_ne by done.
Qed.

Lemma truthy_not_unset v : truthy v = true -> unset v = false.
Proof. by destruct v as [| | | |[]| | |]. Qed.

Lemma getClientConfigWithDefaults_lookup all env ck ek :
  (ck, ek) ∈ CLIENT_CONFIG_ENV_DEFAULTS ->
  getClientConfigWithDefaults all env !! ck =
  if unset (read all ck) then
    if truthy (read env ek) then Some (read env ek)
    else if String.eqb ck "site.page_size" then Some (VNum 5)
    else all !! ck
  else all !! ck.
Proof.
  intros H. pose proof (env_defaults_lookup all env ck ek H) as L.
  unfold getClientConfigWithDefaults.
  set (result := foldl _ _ _) in *.
  destruct (String.eqb_spec ck "site.page_size") as [->|Hne].
  - assert (ek = "PAGE_SIZE") as ->.
    { unfold CLIENT_CONFIG_ENV_DEFAULTS in H.
      repeat (apply elem_of_cons in H as [H|H]; [by injection H|]).
      by apply elem_of_nil in H. }
    unfold read at 1. rewrite L.
    destruct (unset (read all "site.page_size")) eqn:Hu; simpl in *.
    + destruct (truthy (read env "PAGE_SIZE")) eqn:Ht; simpl in *.
      * by rewrite (truthy_not_unset _ Ht).
      * fold (read all "site.page_size"). rewrite Hu. by rewrite lookup_insert_eq.
    + fold (read all "site.page_size"). by rewrite Hu.
  - assert (result' : (if unset (read result "site.page_size")
                       then <["site.page_size":=VNum 5]> result else result) !! ck
                      = result !! ck).
    { destruct (unset (read result _)); [|done].
      by rewrite lookup_insert_ne by congruence. }
    rewrite result', L. by destruct (unset _), (truthy _).
Qed.


(** ** Server configuration: masking *)

Lemma assign_own_lookup o i v k :
  k <> "__proto__" ->
  own (assign o i v) !! k = if decide (i = k) then Some v else own o !! k.
Proof.
  intros Hk. unfold assign.
  destruct (String.eqb_spec i "__proto__") as [->|Hi]; simpl.
  - rewrite decide_False by congruence.
    destruct (accessor_reachable o).
    + by destruct v.
    + simpl. by rewrite lookup_insert_ne by congruence.
  - by rewrite lookup_insert.
Qed.

(** Apart from the name [__proto__], the masked object has the keys of
    the configuration, each with its masked value. *)
Lemma maskSensitiveFields_lookup config k :
  k <> "__proto__" ->
  own (maskSensitiveFields config) !! k = mask_value k <$> config !! k.
Proof.
  intros Hk. unfold maskSensitiveFields.
  apply (map_fold_weak_ind (fun r m => own r !! k = mask_value k <$> m !! k)).
  - by rewrite !lookup_empty.
  - intros i x m r Hi IH.
    assert (E : (if includes SENSITIVE_FIELDS i && truthy x
                 then assign r i (VStr MASK) else assign r i x)
                = assign r i (mask_value i x)).
    { unfold mask_value. by destruct (_ && _). }
    rewrite E, assign_own_lookup by done. rewrite lookup_insert.
    case_decide; by subst.
Qed.

(** C7: an administrator's read of the server configuration carries the
    placeholder under [ai_summary.api_key] whenever the stored key is not
    empty, so never a stored key other than the placeholder text, and
    the same reply whatever non-empty key is stored; it carries the empty
    string, which is falsy and is not the placeholder, when the stored key
    is empty. *)
Theorem server_config_masks_api_key (serverAll clientAll env : gmap string value)
    (stored : AIConfig) :
  exists result,
    config_of (get_config "server" true serverAll clientAll env stored) = Some result /\
    (api_key stored <> EmptyString ->
     result !! "ai_summary.api_key" = Some (VStr MASK) /\
     (api_key stored <> MASK ->
      result !! "ai_summary.api_key" <> Some (VStr (api_key stored))) /\
     forall key', key' <> EmptyString ->
       get_config "server" true serverAll clientAll env (with_api_key stored key')
       = get_config "server" true serverAll clientAll env stored) /\
    (api_key stored = EmptyString ->
     result !! "ai_summary.api_key" = Some (VStr EmptyString) /\
     truthy (VStr EmptyString) = false /\ VStr EmptyString <> VStr MASK).
Proof.
  eexists. split; [reflexivity|].
  rewrite maskSensitiveFields_lookup by done. rewrite lookup_insert_eq. simpl.
  split.
  - intros Hk. destruct (api_key stored) eqn:E; [done|]. simpl.
    change (mask_value _ (VStr MASK)) with (VStr MASK).
    split; [done|]. split; [intros Hm Hm'; apply Hm; congruence|].
    intros key' Hk'. unfold get_config, getAIConfigForFrontend. simpl.
    rewrite E. by destruct key'.
  - intros ->. done.
Qed.

(** ** Configuration writes *)

Lemma prefix_app p n : String.prefix p (p +:+ n) = true.
Proof.
  induction p as [|c p IH]; simpl; [by destruct n|].
  by destruct (ascii_dec c c).
Qed.

Lemma drop_app p n : Str.drop (String.length p) (p +:+ n) = n.
Proof. induction p as [|c p IH]; simpl; [by destruct n|done]. Qed.

Lemma prefix_inv p s :
  String.prefix p s = true -> s = p +:+ Str.drop (String.length p) s.
Proof.
  revert s. induction p as [|c p IH]; intros [|d s]; simpl; try done.
  destruct (ascii_dec c d) as [->|]; [|done]. intros H.
  change (String d s = String d (p +:+ Str.drop (String.length p) s)).
  f_equal. by apply IH.
Qed.

Lemma replace_prefix p s :
  String.prefix p s = true -> Str.replace s p EmptyString = Str.drop (String.length p) s.
Proof. intros H. destruct s; cbn [Str.replace]; rewrite H; reflexivity. Qed.

Lemma app_inj p a b : p +:+ a = p +:+ b -> a = b.
Proof. induction p as [|c p IH]; simpl; [done|]. intros [= H]. auto. Qed.

(** The five declared keys all start with the prefix: the test of the
    prefix alone decides. *)
Lemma isAIConfigKey_prefix k : isAIConfigKey k = Str.startsWith k AI_PREFIX.
Proof.
  unfold isAIConfigKey. destruct (includes AI_CONFIG_KEYS k) eqn:E; [|done].
  apply bool_decide_eq_true in E. unfold AI_CONFIG_KEYS in E.
  repeat (apply elem_of_cons in E as [->|E]; [reflexivity|]).
  by apply elem_of_nil in E.
Qed.

Lemma isAIConfigKey_app n : isAIConfigKey (AI_PREFIX +:+ n) = true.
Proof. rewrite isAIConfigKey_prefix. apply prefix_app. Qed.

Lemma isAIConfigKey_inv k :
  isAIConfigKey k = true ->
  k = AI_PREFIX +:+ Str.replace k AI_PREFIX EmptyString.
Proof.
  rewrite isAIConfigKey_prefix. intros H. rewrite replace_prefix by done.
  by apply prefix_inv.
Qed.

Lemma assign_proto_key o v :
  proto o = None ->
  own (assign o "__proto__" v) = own o.
Proof. intros H. unfold assign, accessor_reachable. rewrite H. by destruct v. Qed.

Lemma assign_other_key o k v :
  k <> "__proto__" ->
  assign o k v = {| own := <[k := v]> (own o); proto := proto o |}.
Proof. intros H. unfold assign. apply String.eqb_neq in H. by rewrite H. Qed.

Lemma separate_step m i x p :
  m !! i = None -> separated m p ->
  separated (<[i := x]> m)
    (let '(regularConfig, aiConfigUpdates) := p in
     if isAIConfigKey i then
       (regularConfig,
        assign aiConfigUpdates (Str.replace i AI_PREFIX EmptyString) x)
     else (assign regularConfig i x, aiConfigUpdates)).
Proof.
  destruct p as [r a]. intros Hi (R1 & R2 & R3 & A1 & A2 & A3).
  destruct (isAIConfigKey i) eqn:Hai.
  - pose proof (isAIConfigKey_inv i Hai) as Ei.
    set (n := Str.replace i AI_PREFIX EmptyString) in *.
    assert (Hip : i <> "__proto__") by (intros ->; discriminate Hai).
    repeat split.
    + intros k Hk. rewrite R1 by done. destruct (isAIConfigKey k) eqn:Hak; [done|].
      rewrite lookup_insert_ne; [done|congruence].
    + done.
    + rewrite lookup_insert_ne by done. apply R3.
    + intros n' Hn'. destruct (decide (n = "__proto__")) as [En|En].
      * rewrite En, assign_proto_key.
        -- rewrite A1 by done. rewrite lookup_insert_ne; [done|].
           rewrite Ei, En. intros H. by apply app_inj in H.
        -- apply A3. by rewrite <- En, <- Ei.
      * rewrite assign_other_key by done. simpl.
        destruct (decide (n = n')) as [<-|Hne].
        -- by rewrite <- Ei, !lookup_insert_eq.
        -- rewrite !lookup_insert_ne; [by apply A1|..|done].
           rewrite Ei. intros H. by apply app_inj in H.
    + destruct (decide (n = "__proto__")) as [En|En].
      * rewrite En, assign_proto_key; [done|]. apply A3. by rewrite <- En, <- Ei.
      * rewrite assign_other_key by done. simpl. by rewrite lookup_insert_ne.
    + intros H. destruct (decide (n = "__proto__")) as [En|En].
      * rewrite Ei, En, lookup_insert_eq in H. done.
      * rewrite assign_other_key by done. simpl. apply A3.
        rewrite lookup_insert_ne in H; [done|].
        rewrite Ei. intros H'. by apply app_inj in H'.
  - assert (Hpre : forall n', i <> AI_PREFIX +:+ n').
    { intros n' ->. by rewrite isAIConfigKey_app in Hai. }
    repeat split.
    + intros k Hk. destruct (decide (i = "__proto__")) as [Ep|Ep].
      * rewrite Ep, assign_proto_key by (apply R3; by rewrite <- Ep).
        rewrite R1 by done. by rewrite lookup_insert_ne.
      * rewrite assign_other_key by done. simpl.
        destruct (decide (i = k)) as [<-|Hne].
        -- by rewrite Hai, !lookup_insert_eq.
        -- rewrite !lookup_insert_ne by done. by apply R1.
    + destruct (decide (i = "__proto__")) as [Ep|Ep].
      * by rewrite Ep, assign_proto_key by (apply R3; by rewrite <- Ep).
      * rewrite assign_other_key by done. simpl. by rewrite lookup_insert_ne.
    + intros H. destruct (decide (i = "__proto__")) as [Ep|Ep].
      * by rewrite Ep, lookup_insert_eq in H.
      * rewrite assign_other_key by done. simpl. apply R3.
        by rewrite lookup_insert_ne in H.
    + intros n' Hn'. rewrite A1 by done. by rewrite lookup_insert_ne.
    + done.
    + intros H. apply A3. by rewrite lookup_insert_ne in H.
Qed.

(** The separating loop, after the whole body. *)
Lemma separate_separated body : separated body (separate body).
Proof.
  unfold separate.
  apply (map_fold_weak_ind (fun p m => separated m p)).
  - repeat split; intros; simpl; rewrite ?lookup_empty; try done.
    by destruct (isAIConfigKey _).
  - intros i x m [r a] Hi IH.
    by apply (separate_step m i x (r, a)).
Qed.

(** Every body key with the prefix, other than [ai_summary.__proto__],
    reaches the AI configuration writer under its name without the
    prefix, and is not an own property of [regularConfig]. *)
Lemma post_config_reroutes type body k v :
  type = "server" \/ type = "client" ->
  body !! k = Some v ->
  Str.startsWith k AI_PREFIX = true ->
  k <> AI_PREFIX +:+ "__proto__" ->
  own (fst (separate body)) !! k = None /\
  exists updates,
    ai_writes (snd (post_config type true body)) = Some updates /\
    own updates !! Str.drop (String.length AI_PREFIX) k = Some v.
Proof.
  intros Ht Hb Hp Hk.
  pose proof (separate_separated body) as S.
  assert (E : post_config type true body =
              ({| set_status := None; returned := PText "OK" |},
               {| generic_writes := for_in (fst (separate body));
                  saved := true;
                  ai_writes := if has_own_keys (snd (separate body))
                               then Some (snd (separate body)) else None |})).
  { unfold post_config. destruct (separate body) as [r a].
    by destruct Ht as [-> | ->]. }
  rewrite E. simpl. destruct (separate body) as [r a]. simpl.
  destruct S as (R1 & _ & _ & A1 & _ & _).
  pose proof (prefix_inv _ _ Hp) as Ek.
  set (n := Str.drop (String.length AI_PREFIX) k) in *.
  assert (Hn : n <> "__proto__") by (intros En; apply Hk; by rewrite Ek, En).
  assert (Ha : own a !! n = Some v) by (by rewrite A1, <- Ek).
  split.
  - rewrite R1 by (intros ->; discriminate Hp).
    by rewrite isAIConfigKey_prefix, Hp.
  - exists a. split; [|done].
    unfold has_own_keys. rewrite bool_decide_eq_false_2; [done|].
    intros Hemp. by rewrite Hemp, lookup_empty in Ha.
Qed.

(** When the body has no key [__proto__], no key with the prefix is
    written to the generic store. *)
Lemma post_config_generic type body k :
  type = "server" \/ type = "client" ->
  body !! "__proto__" = None ->
  Str.startsWith k AI_PREFIX = true ->
  generic_writes (snd (post_config type true body)) !! k = None.
Proof.
  intros Ht Hb Hp.
  pose proof (separate_separated body) as S.
  unfold post_config. destruct (separate body) as [r a].
  destruct S as (R1 & _ & R3 & _).
  assert (G : for_in r !! k = None).
  { unfold for_in, inherited_entries. rewrite (R3 Hb).
    rewrite lookup_union_None. split; [|done].
    rewrite R1 by (intros ->; discriminate Hp).
    by rewrite isAIConfigKey_prefix, Hp. }
  by destruct Ht as [-> | ->].
Qed.

(** C10, at the body whose one key is [ai_summary.__proto__]: the key
    has the prefix, the request is answered [OK], and nothing is written:
    neither to the generic store nor through the AI configuration writer,
    which is not called. *)
Theorem post_config_proto_key_dropped :
  body_proto_key !! "ai_summary.__proto__" = Some (VStr "x") /\
  Str.startsWith "ai_summary.__proto__" AI_PREFIX = true /\
  post_config "server" true body_proto_key =
  ({| set_status := None; returned := PText "OK" |},
   {| generic_writes := ∅; saved := true; ai_writes := None |}).
Proof. repeat split; by vm_compute. Qed.

(** ** The properties at concrete inputs *)

(** An explicit empty key replaces the stored key. *)
Lemma build_testConfig_spec_witness :
  b_api_key body_empty_key = Some EmptyString /\
  tc_api_key (build_testConfig body_empty_key stored_openai) = Some EmptyString.
Proof.
  split; [reflexivity|].
  apply (build_testConfig_spec body_empty_key stored_openai). reflexivity.
Defined.

(** [content] is returned when [response] is absent, whatever follows. *)
Lemma normalize_spec_witness :
  first_present content_first = Some "content" /\
  normalize content_first = VStr "hi".
Proof.
  split; [reflexivity|].
  apply (proj1 (normalize_spec content_first) "content"); reflexivity.
Defined.

(** A key, no URL and an unregistered provider: the URL message. *)
Lemma executeExternalAI_preconditions_witness :
  x_api_key keyed_custom <> EmptyString /\
  AI_PROVIDER_URLS !! x_provider keyed_custom = None /\
  run (executeExternalAI failing_host keyed_custom "ping")
  = (Throw (Error "API URL not configured"), []).
Proof.
  split; [discriminate|]. split; [by vm_compute|].
  apply (proj2 (executeExternalAI_preconditions failing_host keyed_custom "ping")).
  - discriminate.
  - reflexivity.
  - by vm_compute.
  - by vm_compute.
Defined.

(** A 401 answer with the body [denied] is an authentication failure. *)
Lemma testAIModel_unauthorized_witness :
  exists res t,
    run (testAIModel (status_host 401 "denied") (test_openai "sk-test") "ping")
    = (Return res, t) /\
    success res = false /\ error res = Some AUTH_FAILED.
Proof.
  apply (testAIModel_unauthorized (status_host 401 "denied") (test_openai "sk-test")
           "ping" "sk-test" denied).
  - reflexivity.
  - reflexivity.
  - discriminate.
  - reflexivity.
  - reflexivity.
  - reflexivity.
  - reflexivity.
Defined.

(** A transport that throws gives the summary [null]. *)
Lemma generateAISummary_never_throws_witness :
  enabled stored_openai = true /\
  exists t,
    run (generateAISummary failing_host stored_openai "Hello") = (Return VNull, t).
Proof.
  split; [reflexivity|]. eexists.
  apply (proj2 (proj2 (generateAISummary_never_throws failing_host stored_openai "Hello"))
           (Error "fetch failed")).
  - reflexivity.
  - vm_compute. reflexivity.
Defined.

(** A stored key reads as the placeholder. *)
Lemma server_config_masks_api_key_witness :
  api_key stored_openai <> EmptyString /\
  exists result,
    config_of (get_config "server" true ∅ ∅ ∅ stored_openai) = Some result /\
    result !! "ai_summary.api_key" = Some (VStr MASK).
Proof.
  split; [discriminate|].
  destruct (server_config_masks_api_key ∅ ∅ ∅ stored_openai) as (result & E & H & _).
  exists result. split; [exact E|]. apply H. discriminate.
Defined.


(** One request writing an AI key and a site key: the site key goes to the
    generic store, the AI key to the writer under its nested name. *)
Lemma post_config_model_and_name :
  exists updates,
    snd (post_config "server" true body_model_and_name) =
    {| generic_writes := {[ "site.name" := VStr "Acme" ]};
       saved := true;
       ai_writes := Some updates |} /\
    own updates = {[ "model" := VStr "llama-3-8b" ]} /\ proto updates = None.
Proof. eexists. repeat split; by vm_compute. Qed.

(** * Further properties of the code *)

(** ** Strings *)

Lemma length_app a b : Str.length (a +:+ b) = (Str.length a + Str.length b)%nat.
Proof.
  induction a as [|c a IH]; [reflexivity|].
  change (S (Str.length (a +:+ b)) = S (Str.length a + Str.length b)). by rewrite IH.
Qed.

Lemma slice0_length_exact n s :
  Str.length (Str.slice0 n s) = Nat.min n (Str.length s).
Proof.
  revert s. induction n as [|n IH]; intros [|c s]; simpl; try done.
  by rewrite IH.
Qed.

(** ** Summary generation: the truncation *)

Lemma truncate_le content :
  (Str.length (truncate content) <= maxContentLength + 3)%nat.
Proof.
  unfold truncate.
  destruct (Nat.ltb_spec maxContentLength (Str.length content)); [|lia].
  rewrite length_app, slice0_length_exact.
  change (Str.length "...") with 3%nat. lia.
Qed.

(** X1. A content of at most 8000 units is handed on unchanged; a longer
    one becomes exactly 8003 units: its first 8000 units, a prefix of the
    content, and the three dots. *)
Theorem truncate_length (content : string) :
  (Str.length (truncate content) <= maxContentLength + 3)%nat /\
  ((Str.length content <= maxContentLength)%nat -> truncate content = content) /\
  ((maxContentLength < Str.length content)%nat ->
   Str.length (truncate content) = (maxContentLength + 3)%nat /\
   exists kept,
     truncate content = kept +:+ "..." /\
     Str.length kept = maxContentLength /\
     String.prefix kept content = true).
Proof.
  unfold truncate.
  destruct (Nat.ltb_spec maxContentLength (Str.length content)) as [Hlt|Hle].
  - assert (L : Str.length (Str.slice0 maxContentLength content) = maxContentLength).
    { rewrite slice0_length_exact. lia. }
    assert (T : Str.length (Str.slice0 maxContentLength content +:+ "...")
                = (maxContentLength + 3)%nat).
    { rewrite length_app, L. reflexivity. }
    split; [lia|]. split; [lia|]. intros _. split; [done|].
    exists (Str.slice0 maxContentLength content).
    auto using slice0_prefix.
  - split; [lia|]. split; [done|]. lia.
Qed.

(** ** Provider clients: the calls they make *)

Lemma executeWorkerAI_run host modelId input t :
  executeWorkerAI host modelId input t =
  (match AI_run host modelId [ {| role := "user"; content := input |} ] with
   | Return v => Return (normalize v)
   | Throw e => Throw e
   end,
   t ++ [ CallAI modelId [ {| role := "user"; content := input |} ] ]).
Proof.
  unfold executeWorkerAI, bind, env_AI_run. by destruct (AI_run host _ _).
Qed.

Lemma executeExternalAI_calls host config input t :
  snd (executeExternalAI host config input t) =
  if Str.nonempty (x_api_key config) && truthy (finalApiUrl config)
  then t ++ [ CallFetch (chat_request (finalApiUrl config) config input) ]
  else t.
Proof.
  destruct (Str.nonempty (x_api_key config)) eqn:Hk;
    [destruct (truthy (finalApiUrl config)) eqn:Hu|].
  - by apply executeExternalAI_fetches.
  - unfold executeExternalAI. by rewrite Hk, Hu.
  - unfold executeExternalAI. by rewrite Hk.
Qed.

(** X2. The in-runtime client makes exactly one call to the runtime, with
    the model identifier as given and one user message carrying the input;
    it throws only what the runtime threw, never on the shape of the
    result. *)
Theorem executeWorkerAI_one_call (host : Host) (modelId : value) (input : string) :
  snd (run (executeWorkerAI host modelId input))
  = [ CallAI modelId [ {| role := "user"; content := input |} ] ] /\
  (forall v, AI_run host modelId [ {| role := "user"; content := input |} ] = Return v ->
             fst (run (executeWorkerAI host modelId input)) = Return (normalize v)) /\
  (forall e, fst (run (executeWorkerAI host modelId input)) = Throw e <->
             AI_run host modelId [ {| role := "user"; content := input |} ] = Throw e).
Proof.
  unfold run. rewrite executeWorkerAI_run. simpl. split; [done|]. split.
  - by intros v ->.
  - intros e. destruct (AI_run host _ _); split; congruence.
Qed.

Lemma testAIModel_calls host config testPrompt :
  snd (run (testAIModel host config testPrompt))
  = snd (run (test_dispatch host config testPrompt)).
Proof.
  unfold testAIModel, run, try_catch, bind, ret.
  destruct (test_dispatch _ _ _ _) as [[v|e] t]; simpl; [|done].
  by destruct (truthy v).
Qed.

Lemma generateAISummary_calls host config content :
  snd (run (generateAISummary host config content))
  = if enabled config
    then snd (run (summary_dispatch host config (truncate content)))
    else [].
Proof.
  unfold generateAISummary, run, try_catch, ret.
  destruct (enabled config); simpl; [|done].
  by destruct (summary_dispatch _ _ _ _) as [[v|e] t].
Qed.

(** X3. No retry and no fan-out: a test invocation and a summary
    generation each make at most one call to a provider, whatever the
    runtime and the transport answer. *)
Theorem at_most_one_call (host : Host) :
  (forall config testPrompt,
     (calls (run (testAIModel host config testPrompt)) <= 1)%nat) /\
  (forall config content,
     (calls (run (generateAISummary host config content)) <= 1)%nat).
Proof.
  unfold calls. split.
  - intros config testPrompt. rewrite testAIModel_calls.
    unfold test_dispatch, run. destruct (String.eqb _ _).
    + rewrite executeWorkerAI_run. simpl. lia.
    + rewrite executeExternalAI_calls. destruct (_ && _); simpl; lia.
  - intros config content. rewrite generateAISummary_calls.
    destruct (enabled config); [|simpl; lia].
    unfold summary_dispatch, run. destruct (String.eqb _ _).
    + rewrite executeWorkerAI_run. simpl. lia.
    + rewrite executeExternalAI_calls. destruct (_ && _); simpl; lia.
Qed.

(** X4. Whatever a summary generation sends to a provider is the truncated
    content, alone or after the instruction: never more than 8003 units of
    the article. *)
Theorem generateAISummary_prompt_bound (host : Host) (config : AIConfig)
    (content prompt : string) :
  prompt ∈ prompts (snd (run (generateAISummary host config content))) ->
  (prompt = truncate content \/ prompt = SUMMARY_INSTRUCTION +:+ truncate content) /\
  (Str.length prompt <= Str.length SUMMARY_INSTRUCTION + maxContentLength + 3)%nat.
Proof.
  intros Hin.
  assert (H : prompt = truncate content \/
              prompt = SUMMARY_INSTRUCTION +:+ truncate content).
  { rewrite generateAISummary_calls in Hin.
    destruct (enabled config); [|by apply elem_of_nil in Hin].
    unfold summary_dispatch, run in Hin. destruct (String.eqb _ _).
    - rewrite executeWorkerAI_run in Hin. simpl in Hin.
      apply list_elem_of_singleton in Hin. by right.
    - rewrite executeExternalAI_calls in Hin. destruct (_ && _).
      + simpl in Hin. apply list_elem_of_singleton in Hin. by left.
      + by apply elem_of_nil in Hin. }
  split; [done|].
  pose proof (truncate_le content) as L.
  destruct H as [-> | ->]; [lia|]. rewrite length_app. lia.
Qed.

(** ** Error classifier *)

(** The classifier, as the chain of its tests on the message. *)
Lemma processAIError_unfold err model provider :
  let msg := original_message err in
  processAIError err model provider =
  {| success := false; response := None;
     error := Some
       (if is_network msg then "Network error: Unable to connect to AI service"
        else if is_auth msg then "Authentication failed: Invalid API key"
        else if is_rate_limit msg then "Rate limit exceeded"
        else if is_not_found msg then "Model not found"
        else if is_outage msg then "AI service temporarily unavailable"
        else if is_invalid msg then "AI model error: " +:+ msg
        else msg);
     details := Some
       (if is_network msg then "Please check your API URL and network connection."
        else if is_auth msg then "Please check your API key is correct and not expired."
        else if is_rate_limit msg then "Too many requests. Please wait a moment."
        else if is_not_found msg then
          "Model " +:+ dquote +:+ model +:+ dquote +:+ " not found for provider "
            +:+ dquote +:+ provider +:+ dquote +:+ "."
        else if is_outage msg then
          "Service is experiencing issues. Please try again later."
        else if is_invalid msg then
          "Model " +:+ dquote +:+ model +:+ dquote
            +:+ " may not be supported. Please verify the model ID."
        else "Original: " +:+ msg) |}.
Proof.
  unfold processAIError, original_message, is_network, is_auth, is_rate_limit,
    is_not_found, is_outage, is_invalid. simpl.
  set (msg := str_or (message err) "Unknown error").
  destruct (_ || _); [reflexivity|].
  destruct (_ || _); [reflexivity|].
  destruct (Str.includes msg "429"); [reflexivity|].
  destruct (Str.includes msg "404"); [reflexivity|].
  destruct (_ || _); [reflexivity|].
  destruct (Str.includes msg "Invalid"); reflexivity.
Qed.

Lemma original_message_nonempty err : original_message err <> EmptyString.
Proof. unfold original_message, str_or. by destruct (message err). Qed.

(** X5. The classifier always answers a failure with a non-empty error
    text and a non-empty detail text, and the error text does not depend
    on the model or the provider. *)
Theorem processAIError_well_formed (err : exn) (model provider : string) :
  exists msg det,
    processAIError err model provider =
    {| success := false; response := None; error := Some msg; details := Some det |} /\
    msg <> EmptyString /\ det <> EmptyString /\
    forall model' provider',
      error (processAIError err model' provider') = Some msg.
Proof.
  pose proof (original_message_nonempty err) as Hne.
  eexists _, _. split; [apply processAIError_unfold|]. simpl.
  split; [|split].
  - repeat (match goal with |- context [if ?b then _ else _] => destruct b end;
            try done).
  - repeat (match goal with |- context [if ?b then _ else _] => destruct b end;
            try done).
  - intros model' provider'. by rewrite processAIError_unfold.
Qed.

(** X6. The categories are tried in a fixed order and the first match
    wins: a message of the network kind is a network error whatever else
    it contains, one of the authentication kind is an authentication
    failure unless it is of the network kind, and so on down to a message
    with no trigger at all, which is passed through with the detail
    "Original: " followed by the message. *)
Theorem processAIError_first_match (err : exn) (model provider : string) :
  let msg := original_message err in
  let res := processAIError err model provider in
  (is_network msg = true ->
   error res = Some "Network error: Unable to connect to AI service") /\
  (is_network msg = false -> is_auth msg = true ->
   error res = Some "Authentication failed: Invalid API key") /\
  (is_network msg = false -> is_auth msg = false -> is_rate_limit msg = true ->
   error res = Some "Rate limit exceeded") /\
  (is_network msg = false -> is_auth msg = false -> is_rate_limit msg = false ->
   is_not_found msg = true ->
   error res = Some "Model not found") /\
  (is_network msg = false -> is_auth msg = false -> is_rate_limit msg = false ->
   is_not_found msg = false -> is_outage msg = true ->
   error res = Some "AI service temporarily unavailable") /\
  (is_network msg = false -> is_auth msg = false -> is_rate_limit msg = false ->
   is_not_found msg = false -> is_outage msg = false -> is_invalid msg = true ->
   error res = Some ("AI model error: " +:+ msg)) /\
  (is_network msg = false -> is_auth msg = false -> is_rate_limit msg = false ->
   is_not_found msg = false -> is_outage msg = false -> is_invalid msg = false ->
   error res = Some msg /\ details res = Some ("Original: " +:+ msg)).
Proof.
  intros msg res. unfold res. rewrite processAIError_unfold. fold msg. simpl.
  repeat split; intros; repeat match goal with H : _ = _ |- _ => rewrite H end; done.
Qed.

(** ** Test invocation *)

Lemma testAIModel_run host config testPrompt :
  run (testAIModel host config testPrompt) =
  (Return
     match fst (run (test_dispatch host config testPrompt)) with
     | Return result =>
         if truthy result then
           {| success := true; response := Some result;
              error := None; details := None |}
         else
           {| success := false; response := None;
              error := Some "Empty response from AI"; details := None |}
     | Throw err => processAIError err (tc_model config) (tc_provider config)
     end,
   snd (run (test_dispatch host config testPrompt))).
Proof.
  unfold testAIModel, run, try_catch, bind, ret.
  destruct (test_dispatch _ _ _ _) as [[v|e] t]; simpl; [|done].
  by destruct (truthy v).
Qed.

(** X7. A test invocation never throws: it answers a result object. The
    result is a success exactly when the provider returned a truthy value,
    which it then carries; an empty or null value gives
    "Empty response from AI", and a failure of the provider gives the
    classified error. *)
Theorem testAIModel_result (host : Host) (config : TestConfig) (testPrompt : string) :
  exists res,
    fst (run (testAIModel host config testPrompt)) = Return res /\
    (success res = true <->
     exists v, fst (run (test_dispatch host config testPrompt)) = Return v /\
               truthy v = true /\ response res = Some v) /\
    (forall v, fst (run (test_dispatch host config testPrompt)) = Return v ->
               truthy v = false ->
               res = {| success := false; response := None;
                        error := Some "Empty response from AI"; details := None |}) /\
    (forall err, fst (run (test_dispatch host config testPrompt)) = Throw err ->
                 res = processAIError err (tc_model config) (tc_provider config)).
Proof.
  rewrite testAIModel_run. eexists. split; [reflexivity|].
  destruct (fst (run (test_dispatch host config testPrompt))) as [v|e] eqn:E.
  - destruct (truthy v) eqn:T; simpl.
    + split; [|split].
      * split; [intros _; eauto|done].
      * intros v' [= <-]. congruence.
      * done.
    + split; [|split].
      * split; [done|]. intros (v' & [= <-] & ? & _). congruence.
      * done.
      * done.
  - split; [|split].
    + rewrite processAIError_unfold. simpl. split; [done|].
      by intros (v & ? & _).
    + done.
    + by intros err [= <-].
Qed.

(** X8. [requiresApiKey] tells what the dispatcher does. For a provider
    that requires a key, a test invocation without a key (absent or empty)
    fails with "API key not configured" before any call; for the provider
    that does not, the key and the URL have no effect on the invocation. *)
Theorem requiresApiKey_dispatch (host : Host) (config : TestConfig)
    (testPrompt : string) :
  (requiresApiKey (tc_provider config) = true ->
   tc_api_key config = None \/ tc_api_key config = Some EmptyString ->
   run (testAIModel host config testPrompt)
   = (Return (config_error "API key not configured"), [])) /\
  (requiresApiKey (tc_provider config) = false ->
   forall key url,
     run (testAIModel host
            {| tc_provider := tc_provider config; tc_model := tc_model config;
               tc_api_key := key; tc_api_url := url |} testPrompt)
     = run (testAIModel host config testPrompt)).
Proof.
  unfold requiresApiKey. split.
  - intros Hp Hk. apply negb_true_iff in Hp.
    rewrite testAIModel_run. unfold test_dispatch. rewrite Hp.
    assert (E : x_api_key (external_of_test config) = EmptyString).
    { simpl. by destruct Hk as [-> | ->]. }
    rewrite (executeExternalAI_no_key host _ testPrompt E). simpl.
    rewrite processAIError_unfold. reflexivity.
  - intros Hp key url. apply negb_false_iff in Hp.
    rewrite !testAIModel_run. unfold test_dispatch. simpl. by rewrite Hp.
Qed.

(** ** External client: the completion text *)















(** ** External client: the request *)

(** X10. With a key, the external client sends its one request to the
    explicit [api_url] when there is one, whatever the provider, and to
    the registered default of the provider otherwise; the request carries
    the key as bearer token, the model as given and the input as its only
    message. *)
Theorem executeExternalAI_request (host : Host) (config : ExternalConfig)
    (input : string) :
  x_api_key config <> EmptyString ->
  (x_api_url config <> EmptyString ->
   snd (run (executeExternalAI host config input))
   = [ CallFetch (request_to (x_api_url config) config input) ]) /\
  (forall base,
     x_api_url config = EmptyString ->
     AI_PROVIDER_URLS !! x_provider config = Some base ->
     snd (run (executeExternalAI host config input))
     = [ CallFetch (request_to base config input) ]).
Proof.
  intros Hk.
  assert (Hk' : Str.nonempty (x_api_key config) = true)
    by (by destruct (x_api_key config)).
  split.
  - intros Hu.
    assert (E : finalApiUrl config = VStr (x_api_url config)).
    { unfold finalApiUrl, or_else. simpl. by destruct (x_api_url config). }
    unfold run. rewrite executeExternalAI_calls, Hk', E. simpl.
    by destruct (x_api_url config).
  - intros base Hu Hb.
    assert (Hne : Str.nonempty base = true).
    { apply elem_of_list_to_map_2 in Hb.
      repeat (apply elem_of_cons in Hb as [Hb|Hb]; [by inversion Hb|]).
      by apply elem_of_nil in Hb. }
    assert (E : finalApiUrl config = VStr base).
    { unfold finalApiUrl, or_else, literal_get. by rewrite Hu, Hb. }
    unfold run. rewrite executeExternalAI_calls, Hk', E. simpl. by rewrite Hne.
Qed.



(** X12. The reading of the body is tolerant where a step of the path
    [choices[0].message.content] is missing: an object without [choices],
    an empty [choices] and a first choice without [message] or without
    [content] all give [null]. It is not where the body is [null] or the
    content is a number: the client throws. *)
Theorem extract_content_shapes :
  (forall fields, assoc "choices" fields = None ->
                  extract_content (VObj fields) = Return VNull) /\
  extract_content (VObj [ ("choices", VArr []) ]) = Return VNull /\
  (forall fields, assoc "message" fields = None ->
                  extract_content (VObj [ ("choices", VArr [ VObj fields ]) ])
                  = Return VNull) /\
  (forall fields, assoc "content" fields = None ->
                  extract_content
                    (VObj [ ("choices", VArr [ VObj [ ("message", VObj fields) ] ]) ])
                  = Return VNull) /\
  (exists e, extract_content VNull = Throw e) /\
  (forall z, exists e,
     extract_content
       (VObj [ ("choices", VArr [ VObj [ ("message", VObj [ ("content", VNum z) ]) ] ]) ])
     = Throw e).
Proof.
  repeat split.
  - intros fields H. unfold extract_content. simpl. by rewrite H.
  - intros fields H. unfold extract_content. simpl. by rewrite H.
  - intros fields H. unfold extract_content. simpl. by rewrite H.
  - by eexists.
  - intros z. by eexists.
Qed.

(** ** Test invocation against a failing transport *)

(** The status text before the body never completes a trigger of an
    earlier category. *)
Lemma triggers_after_status text :
  (is_network (api_error "429" text) = is_network text /\
   is_auth (api_error "429" text) = is_auth text /\
   is_rate_limit (api_error "429" text) = true) /\
  (is_network (api_error "404" text) = is_network text /\
   is_auth (api_error "404" text) = is_auth text /\
   is_rate_limit (api_error "404" text) = is_rate_limit text /\
   is_not_found (api_error "404" text) = true) /\
  (is_network (api_error "500" text) = is_network text /\
   is_auth (api_error "500" text) = is_auth text /\
   is_rate_limit (api_error "500" text) = is_rate_limit text /\
   is_not_found (api_error "500" text) = is_not_found text /\
   is_outage (api_error "500" text) = true) /\
  (is_network (api_error "503" text) = is_network text /\
   is_auth (api_error "503" text) = is_auth text /\
   is_rate_limit (api_error "503" text) = is_rate_limit text /\
   is_not_found (api_error "503" text) = is_not_found text /\
   is_outage (api_error "503" text) = true).
Proof.
  repeat split; try reflexivity.
  unfold is_outage.
  change (Str.includes (api_error "503" text) "503") with true.
  apply orb_true_r.
Qed.

Lemma testAIModel_status host config testPrompt key resp :
  tc_provider config <> "worker-ai" ->
  tc_api_key config = Some key -> key <> EmptyString ->
  truthy (finalApiUrl (external_of_test config)) = true ->
  (forall req, fetch host req = Return resp) ->
  ok resp = false ->
  fst (run (testAIModel host config testPrompt)) =
  Return (processAIError
            (Error (api_error (Str.of_N (status resp)) (text resp)))
            (tc_model config) (tc_provider config)).
Proof.
  intros Hp Hk Hne Hu Hf Hok.
  assert (Hkey : Str.nonempty (x_api_key (external_of_test config)) = true).
  { simpl. rewrite Hk. simpl. by destruct key. }
  rewrite testAIModel_run. unfold test_dispatch.
  apply String.eqb_neq in Hp. rewrite Hp.
  by rewrite (executeExternalAI_status host _ testPrompt resp Hkey Hu (Hf _) Hok).
Qed.

Lemma original_message_api_error code text :
  original_message (Error (api_error code text)) = api_error code text.
Proof. reflexivity. Qed.

(** X13. A test invocation of an external provider, with a key and a URL,
    against a transport answering 429, 404, 500 or 503 with a body that
    contains none of the texts of the network and authentication
    categories: the answer is "Rate limit exceeded" for 429; "Model not
    found" for 404 unless the body contains "429"; and "AI service
    temporarily unavailable" for 500 and 503 unless the body contains
    "429" or "404". *)
Theorem testAIModel_status_categories (host : Host) (config : TestConfig)
    (testPrompt key : string) (resp : Response) :
  tc_provider config <> "worker-ai" ->
  tc_api_key config = Some key -> key <> EmptyString ->
  truthy (finalApiUrl (external_of_test config)) = true ->
  (forall req, fetch host req = Return resp) ->
  plain_body (text resp) = true ->
  status resp = 429%N \/ status resp = 404%N \/
  status resp = 500%N \/ status resp = 503%N ->
  exists res,
    fst (run (testAIModel host config testPrompt)) = Return res /\
    (status resp = 429%N -> error res = Some "Rate limit exceeded") /\
    (status resp = 404%N -> is_rate_limit (text resp) = false ->
     error res = Some "Model not found") /\
    (status resp = 500%N \/ status resp = 503%N ->
     is_rate_limit (text resp) = false -> is_not_found (text resp) = false ->
     error res = Some "AI service temporarily unavailable").
Proof.
  intros Hp Hk Hne Hu Hf Hb Hs.
  unfold plain_body in Hb. apply negb_true_iff, orb_false_iff in Hb as [B1 B2].
  assert (Hok : ok resp = false).
  { unfold ok. by destruct Hs as [-> | [-> | [-> | ->]]]. }
  rewrite (testAIModel_status host config testPrompt key resp) by done.
  eexists. split; [reflexivity|].
  destruct (triggers_after_status (text resp))
    as ((N1 & A1 & R1) & (N2 & A2 & R2 & F2) & (N3 & A3 & R3 & F3 & O3)
        & (N4 & A4 & R4 & F4 & O4)).
  rewrite processAIError_unfold, original_message_api_error. simpl.
  destruct Hs as [E | [E | [E | E]]]; rewrite E;
    [change (Str.of_N 429) with "429" | change (Str.of_N 404) with "404"
     | change (Str.of_N 500) with "500" | change (Str.of_N 503) with "503"].
  - rewrite N1, A1, R1, B1, B2. repeat split; try done. by intros [|].
  - rewrite N2, A2, R2, F2, B1, B2. repeat split; try done.
    + by intros _ ->.
    + by intros [|].
  - rewrite N3, A3, R3, F3, O3, B1, B2. repeat split; try done.
    by intros _ -> ->.
  - rewrite N4, A4, R4, F4, O4, B1, B2. repeat split; try done.
    by intros _ -> ->.
Qed.

(** ** Model registry: the listed aliases *)

Lemma listed_alias alias :
  alias ∈ getAvailableModels "worker-ai" ->
  exists full, (alias, full) ∈ WORKER_AI_MODELS_entries.
Proof.
  change (getAvailableModels "worker-ai") with (WORKER_AI_MODELS_entries.*1).
  intros H. apply list_elem_of_fmap in H as ([a f] & -> & H). by exists f.
Qed.

Lemma registered_entry alias full :
  (alias, full) ∈ WORKER_AI_MODELS_entries ->
  getWorkerAIModelId alias = VStr full /\
  Str.startsWith full "@cf/" = true /\
  getWorkerAIModelId full = VStr full.
Proof.
  unfold WORKER_AI_MODELS_entries. intros H.
  repeat (apply elem_of_cons in H as [H|H];
          [injection H as -> ->; repeat split; by vm_compute|]).
  by apply elem_of_nil in H.
Qed.

(** X14. Every alias listed for the in-runtime provider resolves to a full
    identifier of the runtime (one that begins with "@cf/"); resolving
    that identifier again leaves it as it is; two listed aliases never
    resolve to the same identifier; and no other provider lists any
    model. *)
Theorem getAvailableModels_resolve :
  (forall alias,
     alias ∈ getAvailableModels "worker-ai" ->
     exists full,
       getWorkerAIModelId alias = VStr full /\
       Str.startsWith full "@cf/" = true /\
       getWorkerAIModelId full = VStr full) /\
  (forall a1 a2,
     a1 ∈ getAvailableModels "worker-ai" ->
     a2 ∈ getAvailableModels "worker-ai" ->
     getWorkerAIModelId a1 = getWorkerAIModelId a2 -> a1 = a2) /\
  (forall provider, provider <> "worker-ai" -> getAvailableModels provider = []).
Proof.
  split; [|split].
  - intros alias H. destruct (listed_alias _ H) as [full Hf].
    exists full. by apply registered_entry.
  - intros a1 a2 H1 H2 E.
    destruct (listed_alias _ H1) as [f1 Hf1]. destruct (listed_alias _ H2) as [f2 Hf2].
    destruct (registered_entry _ _ Hf1) as (E1 & _).
    destruct (registered_entry _ _ Hf2) as (E2 & _).
    rewrite E1, E2 in E. injection E as <-.
    assert (N : NoDup (WORKER_AI_MODELS_entries.*2)).
    { apply (bool_decide_unpack _). by vm_compute. }
    clear -Hf1 Hf2 N. revert Hf1 Hf2 N.
    generalize WORKER_AI_MODELS_entries as l.
    induction l as [|[a f] l IH]; intros Hf1 Hf2 N; [by apply elem_of_nil in Hf1|].
    apply NoDup_cons in N as [Nf N]. simpl in Nf.
    apply elem_of_cons in Hf1 as [E1|Hf1];
      apply elem_of_cons in Hf2 as [E2|Hf2].
    + congruence.
    + injection E1 as -> ->. destruct Nf. apply list_elem_of_fmap. by exists (a2, f).
    + injection E2 as -> ->. destruct Nf. apply list_elem_of_fmap. by exists (a1, f).
    + by apply IH.
  - intros provider Hp. unfold getAvailableModels.
    apply String.eqb_neq in Hp. by rewrite Hp.
Qed.

(** ** Masking *)

Lemma mask_value_idem k v : mask_value k (mask_value k v) = mask_value k v.
Proof.
  unfold mask_value. destruct (includes SENSITIVE_FIELDS k); simpl; [|done].
  by destruct (truthy v) eqn:E; [|rewrite E].
Qed.

(** The masked object never has an own property [__proto__]. *)
Lemma maskSensitiveFields_proto config :
  own (maskSensitiveFields config) !! "__proto__" = None.
Proof.
  unfold maskSensitiveFields.
  apply (map_fold_weak_ind
           (fun r m => own r !! "__proto__" = None /\
                       (m !! "__proto__" = None -> proto r = None))).
  - by split.
  - intros i x m r Hi [IH1 IH2].
    assert (E : (if includes SENSITIVE_FIELDS i && truthy x
                 then assign r i (VStr MASK) else assign r i x)
                = assign r i (mask_value i x)).
    { unfold mask_value. by destruct (_ && _). }
    rewrite E. destruct (decide (i = "__proto__")) as [->|Hne].
    + rewrite assign_proto_key by auto. split; [done|].
      by rewrite lookup_insert_eq.
    + rewrite assign_other_key by done. simpl. split.
      * by rewrite lookup_insert_ne.
      * rewrite lookup_insert_ne by done. apply IH2.
Qed.

Lemma maskSensitiveFields_own config k :
  own (maskSensitiveFields config) !! k =
  if decide (k = "__proto__") then None else mask_value k <$> config !! k.
Proof.
  case_decide as E.
  - subst. apply maskSensitiveFields_proto.
  - by apply maskSensitiveFields_lookup.
Qed.

(** X15. Masking keeps the keys of the configuration (the name
    [__proto__] apart) and changes nothing but secrets: an entry that is
    not sensitive, or is sensitive and falsy, keeps its value; a sensitive
    truthy entry reads as the placeholder. So no truthy value other than
    the placeholder is left under a sensitive key, and masking what was
    masked changes nothing. *)
Theorem maskSensitiveFields_spec (config : gmap string value) :
  let masked := own (maskSensitiveFields config) in
  (forall k, k <> "__proto__" -> is_Some (masked !! k) <-> is_Some (config !! k)) /\
  (forall k v, k <> "__proto__" -> config !! k = Some v ->
     (includes SENSITIVE_FIELDS k = false \/ truthy v = false) ->
     masked !! k = Some v) /\
  (forall k v, config !! k = Some v ->
     includes SENSITIVE_FIELDS k = true -> truthy v = true ->
     masked !! k = Some (VStr MASK)) /\
  (forall k w, includes SENSITIVE_FIELDS k = true -> masked !! k = Some w ->
     truthy w = true -> w = VStr MASK) /\
  own (maskSensitiveFields masked) = masked.
Proof.
  intros masked. unfold masked. repeat split.
  - rewrite maskSensitiveFields_lookup by done. by rewrite fmap_is_Some.
  - rewrite maskSensitiveFields_lookup by done. by rewrite fmap_is_Some.
  - intros k v Hk Hc Hs. rewrite maskSensitiveFields_lookup, Hc by done. simpl.
    unfold mask_value. destruct Hs as [-> | ->]; [done|]. by rewrite andb_false_r.
  - intros k v Hc Hs Ht.
    assert (Hk : k <> "__proto__") by (intros ->; by vm_compute in Hs).
    rewrite maskSensitiveFields_lookup, Hc by done. simpl.
    unfold mask_value. by rewrite Hs, Ht.
  - intros k w Hs Hm Ht.
    assert (Hk : k <> "__proto__") by (intros ->; by vm_compute in Hs).
    rewrite maskSensitiveFields_lookup in Hm by done.
    destruct (config !! k) as [v|]; [|done]. injection Hm as <-.
    unfold mask_value in *. rewrite Hs in *. simpl in *.
    destruct (truthy v) eqn:E; [done|congruence].
  - apply map_eq. intros k. rewrite !maskSensitiveFields_own.
    case_decide; [done|]. destruct (config !! k); [|done]. simpl.
    by rewrite mask_value_idem.
Qed.

(** ** AI keys *)

(** X16. A key is an AI key exactly when it starts with "ai_summary.";
    the list of declared keys adds nothing. Stripping the prefix and
    putting it back gives the key, so two AI keys never strip to the same
    nested name, and every nested name is the stripped form of its
    prefixed key. *)
Theorem isAIConfigKey_strip :
  (forall key, isAIConfigKey key = Str.startsWith key "ai_summary.") /\
  (forall key, isAIConfigKey key = true ->
     "ai_summary." +:+ Str.replace key "ai_summary." EmptyString = key) /\
  (forall k1 k2, isAIConfigKey k1 = true -> isAIConfigKey k2 = true ->
     Str.replace k1 "ai_summary." EmptyString
     = Str.replace k2 "ai_summary." EmptyString -> k1 = k2) /\
  (forall nested,
     isAIConfigKey ("ai_summary." +:+ nested) = true /\
     Str.replace ("ai_summary." +:+ nested) "ai_summary." EmptyString = nested).
Proof.
  split; [|split; [|split]].
  - apply isAIConfigKey_prefix.
  - intros key H. symmetry. by apply isAIConfigKey_inv.
  - intros k1 k2 H1 H2 E.
    rewrite (isAIConfigKey_inv k1 H1), (isAIConfigKey_inv k2 H2).
    unfold AI_PREFIX. by rewrite E.
  - intros nested. split; [apply isAIConfigKey_app|].
    rewrite replace_prefix by apply prefix_app.
    apply (drop_app "ai_summary." nested).
Qed.

(** ** Client configuration *)

Lemma getClientConfigWithDefaults_other all env k :
  k ∉ CLIENT_CONFIG_ENV_DEFAULTS.*1 ->
  getClientConfigWithDefaults all env !! k = all !! k.
Proof.
  intros Hk. unfold getClientConfigWithDefaults, CLIENT_CONFIG_ENV_DEFAULTS in *.
  simpl in Hk. rewrite !not_elem_of_cons in Hk.
  destruct Hk as (H1 & H2 & H3 & H4 & _).
  cbn [foldl].
  match goal with |- (if ?b then _ else _) !! _ = _ => destruct b end.
  - rewrite lookup_insert_ne by congruence. by rewrite !apply_env_default_ne.
  - by rewrite !apply_env_default_ne.
Qed.

Lemma site_key_env k :
  k ∈ CLIENT_CONFIG_ENV_DEFAULTS.*1 ->
  exists ek, (k, ek) ∈ CLIENT_CONFIG_ENV_DEFAULTS.
Proof.
  intros H. apply list_elem_of_fmap in H as ([a e] & -> & H). by exists e.
Qed.

Lemma page_size_set all env :
  unset (read (getClientConfigWithDefaults all env) "site.page_size") = false.
Proof.
  unfold read at 1.
  rewrite (getClientConfigWithDefaults_lookup all env "site.page_size" "PAGE_SIZE")
    by (unfold CLIENT_CONFIG_ENV_DEFAULTS; rewrite !elem_of_cons; auto 10).
  destruct (unset (read all "site.page_size")) eqn:Hu.
  - destruct (truthy (read env "PAGE_SIZE")) eqn:Ht; simpl; [|done].
    by apply truthy_not_unset.
  - exact Hu.
Qed.

(** X17. Reading the client configuration with defaults leaves every key
    other than the four site keys as the store has it, always gives
    [site.page_size] a value that is neither absent nor empty, and is
    idempotent: applying the defaults to its own result changes nothing. *)
Theorem getClientConfigWithDefaults_stable (all env : gmap string value) :
  let result := getClientConfigWithDefaults all env in
  (forall k, k ∉ [ "site.name"; "site.description"; "site.avatar"; "site.page_size" ] ->
             result !! k = all !! k) /\
  (exists v, result !! "site.page_size" = Some v /\ unset v = false) /\
  getClientConfigWithDefaults result env = result.
Proof.
  intros result. unfold result. split; [|split].
  - intros k Hk. by apply getClientConfigWithDefaults_other.
  - pose proof (page_size_set all env) as H. unfold read in H.
    destruct (getClientConfigWithDefaults all env !! "site.page_size") as [v|];
      [eauto|done].
  - apply map_eq. intros k.
    destruct (decide (k ∈ CLIENT_CONFIG_ENV_DEFAULTS.*1)) as [Hin|Hout].
    + destruct (site_key_env k Hin) as [ek He].
      rewrite (getClientConfigWithDefaults_lookup _ env k ek He).
      destruct (unset (read (getClientConfigWithDefaults all env) k)) eqn:Hu; [|done].
      unfold read in Hu.
      rewrite (getClientConfigWithDefaults_lookup all env k ek He) in Hu |- *.
      destruct (unset (read all k)) eqn:Ha.
      * destruct (truthy (read env ek)) eqn:Ht.
        -- simpl in Hu. by rewrite (truthy_not_unset _ Ht) in Hu.
        -- destruct (String.eqb k "site.page_size"); [done|]. reflexivity.
      * fold (read all k) in Hu. congruence.
    + by rewrite !getClientConfigWithDefaults_other.
Qed.

(** ** Reads *)

(** X18. A client read needs no administrator and shows of the AI
    configuration nothing but whether it is enabled: the reply is the same
    for any two stored configurations with the same [enabled], whoever
    asks and whatever the server store holds; [ai_summary.enabled] is that
    flag, and every other key of the reply comes from the client store or
    the site defaults. *)
Theorem client_read_hides_ai_config (admin admin' : bool)
    (serverAll serverAll' clientAll env : gmap string value)
    (stored stored' : AIConfig) :
  enabled stored = enabled stored' ->
  get_config "client" admin serverAll clientAll env stored
  = get_config "client" admin' serverAll' clientAll env stored' /\
  exists result,
    config_of (get_config "client" admin serverAll clientAll env stored) = Some result /\
    result !! "ai_summary.enabled" = Some (VBool (enabled stored)) /\
    forall k, k <> "ai_summary.enabled" ->
              result !! k = getClientConfigWithDefaults clientAll env !! k.
Proof.
  intros He. split.
  - unfold get_config, getAIConfigForFrontend. simpl. by rewrite He.
  - eexists. split; [reflexivity|]. split.
    + by rewrite lookup_insert_eq.
    + intros k Hk. by rewrite lookup_insert_ne.
Qed.


(** ** The administrator's gate *)

(** X20. Without the administrator flag no gated route does anything: a
    server read answers 401 and carries no configuration, a write answers
    400 or 401 and asks nothing of the stores or of the AI writer, a test
    invocation answers 401 and calls no provider, and the cache is not
    cleared. An unknown namespace is refused with 400 for reads and writes
    alike, administrator or not. *)
Theorem gated_routes_without_admin (host : Host) (type : string)
    (serverAll clientAll env body : gmap string value) (stored : AIConfig)
    (test : TestBody) :
  (set_status (get_config "server" false serverAll clientAll env stored) = Some 401%N /\
   config_of (get_config "server" false serverAll clientAll env stored) = None) /\
  (snd (post_config type false body) = no_writes /\
   (set_status (fst (post_config type false body)) = Some 400%N \/
    set_status (fst (post_config type false body)) = Some 401%N)) /\
  run (post_test_ai host false test stored)
  = (Return {| set_status := Some 401%N; returned := PError "Unauthorized" |}, []) /\
  delete_cache false
  = ({| set_status := Some 401%N; returned := PText "Unauthorized" |}, false) /\
  (type <> "server" -> type <> "client" ->
   forall admin,
     get_config type admin serverAll clientAll env stored
     = {| set_status := Some 400%N; returned := PText "Invalid type" |} /\
     post_config type admin body
     = ({| set_status := Some 400%N; returned := PText "Invalid type" |}, no_writes)).
Proof.
  split; [by split|]. split.
  { unfold post_config. destruct (negb _ && negb _); auto. }
  split; [reflexivity|]. split; [reflexivity|].
  intros H1 H2 admin. apply String.eqb_neq in H1, H2.
  unfold get_config, post_config. by rewrite H1, H2.
Qed.

(** ** Writes *)

Lemma post_config_admin type body :
  type = "server" \/ type = "client" ->
  post_config type true body =
  ({| set_status := None; returned := PText "OK" |},
   {| generic_writes := for_in (fst (separate body));
      saved := true;
      ai_writes := if has_own_keys (snd (separate body))
                   then Some (snd (separate body)) else None |}).
Proof.
  intros Ht. unfold post_config. destruct (separate body) as [r a].
  by destruct Ht as [-> | ->].
Qed.

Lemma has_own_keys_spec o : has_own_keys o = true <-> exists k, is_Some (own o !! k).
Proof.
  unfold has_own_keys. rewrite negb_true_iff, bool_decide_eq_false. split.
  - intros H. destruct (map_choose _ H) as (k & v & Hk). exists k. by rewrite Hk.
  - intros (k & v & Hk) E. by rewrite E, lookup_empty in Hk.
Qed.

(** X21. An administrator's write to [server] or [client] answers OK,
    saves the store, and writes every body key that is not an AI key
    (the name [__proto__] apart) to the generic store with its value. The
    AI writer is called exactly when the body has an AI key other than
    [ai_summary.__proto__], and then with exactly those keys, prefix
    removed, as own properties. When the body has no key [__proto__],
    nothing else is written to the generic store. *)
Theorem post_config_writes (type : string) (body : gmap string value) :
  type = "server" \/ type = "client" ->
  let reply := fst (post_config type true body) in
  let writes := snd (post_config type true body) in
  reply = {| set_status := None; returned := PText "OK" |} /\
  saved writes = true /\
  (forall k v, body !! k = Some v -> isAIConfigKey k = false -> k <> "__proto__" ->
               generic_writes writes !! k = Some v) /\
  (body !! "__proto__" = None ->
   forall k, generic_writes writes !! k
             = if isAIConfigKey k then None else body !! k) /\
  (is_Some (ai_writes writes) <->
   exists nested, nested <> "__proto__" /\
                  is_Some (body !! ("ai_summary." +:+ nested))) /\
  (forall updates nested,
     ai_writes writes = Some updates -> nested <> "__proto__" ->
     own updates !! nested = body !! ("ai_summary." +:+ nested)) /\
  (forall updates, ai_writes writes = Some updates ->
                   own updates !! "__proto__" = None).
Proof.
  intros Ht reply writes. unfold reply, writes.
  rewrite (post_config_admin type body Ht). simpl.
  pose proof (separate_separated body) as S.
  destruct (separate body) as [r a]. simpl.
  destruct S as (R1 & R2 & R3 & A1 & A2 & A3).
  split; [done|]. split; [done|]. split; [|split; [|split; [|split]]].
  - intros k v Hb Hk Hp. unfold for_in.
    apply lookup_union_Some_l. by rewrite R1, Hk.
  - intros Hb k. unfold for_in, inherited_entries. rewrite (R3 Hb).
    rewrite (right_id_L ∅ (∪)). destruct (decide (k = "__proto__")) as [->|Hk].
    + by rewrite R2, Hb.
    + by apply R1.
  - destruct (has_own_keys a) eqn:E.
    + split; [intros _|by eauto].
      apply has_own_keys_spec in E as (k & Hk).
      assert (Hp : k <> "__proto__") by (intros ->; rewrite A2 in Hk; by destruct Hk).
      exists k. split; [done|]. by rewrite <- A1.
    + split; [by intros [? ?]|]. intros (n & Hn & Hs).
      assert (has_own_keys a = true); [|congruence].
      apply has_own_keys_spec. exists n. by rewrite A1.
  - intros updates n Hu Hn. destruct (has_own_keys a); [|done].
    injection Hu as <-. by apply A1.
  - intros updates Hu. destruct (has_own_keys a); [|done]. by injection Hu as <-.
Qed.

(** ** Routing *)

(** X22. The provider name alone picks the client. With "worker-ai" a test
    invocation and an enabled summary generation call the runtime once,
    with the model resolved through the registry, and never the
    transport; with any other provider they never call the runtime. *)
Theorem provider_routing (host : Host) :
  (forall config testPrompt,
     tc_provider config = "worker-ai" ->
     snd (run (testAIModel host config testPrompt))
     = [ CallAI (getWorkerAIModelId (tc_model config))
                [ {| role := "user"; content := testPrompt |} ] ]) /\
  (forall config content,
     provider config = "worker-ai" -> enabled config = true ->
     snd (run (generateAISummary host config content))
     = [ CallAI (getWorkerAIModelId (model config))
                [ {| role := "user";
                     content := SUMMARY_INSTRUCTION +:+ truncate content |} ] ]) /\
  (forall config testPrompt,
     tc_provider config <> "worker-ai" ->
     forallb is_fetch (snd (run (testAIModel host config testPrompt))) = true) /\
  (forall config content,
     provider config <> "worker-ai" ->
     forallb is_fetch (snd (run (generateAISummary host config content))) = true).
Proof.
  split; [|split; [|split]].
  - intros config testPrompt Hp. rewrite testAIModel_calls.
    unfold test_dispatch, run. rewrite Hp. simpl. by rewrite executeWorkerAI_run.
  - intros config content Hp He. rewrite generateAISummary_calls, He.
    unfold summary_dispatch, run. rewrite Hp. simpl. by rewrite executeWorkerAI_run.
  - intros config testPrompt Hp. rewrite testAIModel_calls.
    unfold test_dispatch, run. apply String.eqb_neq in Hp. rewrite Hp.
    rewrite executeExternalAI_calls. by destruct (_ && _).
  - intros config content Hp. rewrite generateAISummary_calls.
    destruct (enabled config); [|done].
    unfold summary_dispatch, run. apply String.eqb_neq in Hp. rewrite Hp.
    rewrite executeExternalAI_calls. by destruct (_ && _).
Qed.

(** ** Test route *)

(** X23. On the test route an explicit empty [api_key] in the body hides
    the stored key: for a provider other than "worker-ai" the answer is
    the configuration error "API key not configured" and no provider is
    called. A body without [api_key] hands the stored key to the client. *)
Theorem post_test_ai_key_override (host : Host) (body : TestBody) (stored : AIConfig) :
  (b_api_key body = Some EmptyString ->
   tc_provider (build_testConfig body stored) <> "worker-ai" ->
   run (post_test_ai host true body stored)
   = (Return {| set_status := None;
                returned := PTest (config_error "API key not configured") |}, [])) /\
  (b_api_key body = None ->
   x_api_key (external_of_test (build_testConfig body stored)) = api_key stored).
Proof.
  split.
  - intros Hk Hp. unfold post_test_ai. simpl. unfold bind.
    assert (E : run (testAIModel host (build_testConfig body stored)
                       (opt_or (b_testPrompt body) DEFAULT_TEST_PROMPT))
                = (Return (config_error "API key not configured"), [])).
    { rewrite testAIModel_run. unfold test_dispatch.
      apply String.eqb_neq in Hp. rewrite Hp.
      rewrite (executeExternalAI_no_key host _ _); [|simpl; by rewrite Hk].
      simpl. by rewrite processAIError_unfold. }
    unfold run in *. by rewrite E.
  - intros Hk. simpl. rewrite Hk. simpl. apply str_or_empty_r.
Qed.

(** ** The further properties at concrete inputs *)

(** A content of 8001 units is cut to 8003. *)
Lemma truncate_length_witness :
  (maxContentLength < Str.length long_content)%nat /\
  Str.length (truncate long_content) = (maxContentLength + 3)%nat.
Proof.
  assert (H : (maxContentLength < Str.length long_content)%nat).
  { apply Nat.ltb_lt. vm_compute. reflexivity. }
  split; [exact H|].
  apply (proj2 (proj2 (truncate_length long_content)) H).
Defined.

(** The prompt of a summary through [openai] is within the bound. *)
Lemma generateAISummary_prompt_bound_witness :
  "Hello" ∈ prompts (snd (run (generateAISummary failing_host stored_openai "Hello"))) /\
  (Str.length "Hello" <= Str.length SUMMARY_INSTRUCTION + maxContentLength + 3)%nat.
Proof.
  assert (H : "Hello" ∈ prompts (snd (run (generateAISummary failing_host
                                             stored_openai "Hello")))).
  { vm_compute. apply list_elem_of_here. }
  split; [exact H|].
  apply (generateAISummary_prompt_bound failing_host stored_openai "Hello" "Hello" H).
Defined.

(** A message with "401" and "429" is an authentication failure. *)
Lemma processAIError_first_match_witness :
  is_network "HTTP 401 after 429" = false /\
  is_auth "HTTP 401 after 429" = true /\
  error (processAIError (Error "HTTP 401 after 429") "m" "openai")
  = Some "Authentication failed: Invalid API key".
Proof.
  split; [reflexivity|]. split; [reflexivity|].
  apply (proj1 (proj2 (processAIError_first_match (Error "HTTP 401 after 429")
                         "m" "openai"))); reflexivity.
Defined.

(** A provider that requires a key, invoked without one. *)
Lemma requiresApiKey_dispatch_witness :
  requiresApiKey (tc_provider (test_custom None None)) = true /\
  run (testAIModel failing_host (test_custom None None) "ping")
  = (Return (config_error "API key not configured"), []).
Proof.
  split; [reflexivity|].
  apply (proj1 (requiresApiKey_dispatch failing_host (test_custom None None) "ping")).
  - reflexivity.
  - left. reflexivity.
Defined.


(** An explicit URL is used although the provider has a default. *)
Lemma executeExternalAI_request_witness :
  x_api_key keyed_proxy <> EmptyString /\
  snd (run (executeExternalAI failing_host keyed_proxy "ping"))
  = [ CallFetch (request_to "https://proxy.example/v1" keyed_proxy "ping") ].
Proof.
  split; [discriminate|].
  apply (proj1 (executeExternalAI_request failing_host keyed_proxy "ping"
                  ltac:(discriminate))).
  discriminate.
Defined.


(** A 429 answer is a rate limit. *)
Lemma testAIModel_status_categories_witness :
  plain_body (text slow_down) = true /\
  exists res,
    fst (run (testAIModel (status_host 429 "slow down") (test_openai "sk-test") "ping"))
    = Return res /\
    error res = Some "Rate limit exceeded".
Proof.
  split; [reflexivity|].
  destruct (testAIModel_status_categories (status_host 429 "slow down")
              (test_openai "sk-test") "ping" "sk-test" slow_down)
    as (res & E & H & _).
  - discriminate.
  - reflexivity.
  - discriminate.
  - by vm_compute.
  - reflexivity.
  - reflexivity.
  - left. reflexivity.
  - exists res. split; [exact E|]. apply H. reflexivity.
Defined.

(** Two stored configurations that differ in the key give the same
    client read. *)
Lemma client_read_hides_ai_config_witness :
  enabled stored_openai = enabled (with_api_key stored_openai "sk-other") /\
  get_config "client" false ∅ ∅ env_acme stored_openai
  = get_config "client" true ∅ ∅ env_acme (with_api_key stored_openai "sk-other").
Proof.
  split; [reflexivity|].
  apply (client_read_hides_ai_config false true ∅ ∅ ∅ env_acme stored_openai
           (with_api_key stored_openai "sk-other")).
  reflexivity.
Defined.

(** A write of an AI key and a site key. *)
Lemma post_config_writes_witness :
  body_model_and_name !! "site.name" = Some (VStr "Acme") /\
  isAIConfigKey "site.name" = false /\
  generic_writes (snd (post_config "server" true body_model_and_name)) !! "site.name"
  = Some (VStr "Acme").
Proof.
  split; [by vm_compute|]. split; [reflexivity|].
  apply (proj1 (proj2 (proj2
           (post_config_writes "server" body_model_and_name (or_introl eq_refl))))).
  - by vm_compute.
  - reflexivity.
  - discriminate.
Defined.

(** The stored key is hidden by an empty one in the body. *)
Lemma post_test_ai_key_override_witness :
  b_api_key body_empty_key_openai = Some EmptyString /\
  run (post_test_ai failing_host true body_empty_key_openai stored_openai)
  = (Return {| set_status := None;
               returned := PTest (config_error "API key not configured") |}, []).
Proof.
  split; [reflexivity|].
  apply (proj1 (post_test_ai_key_override failing_host body_empty_key_openai
                  stored_openai)).
  - reflexivity.
  - discriminate.
Defined.

(** The worker route for the stored configuration of a listed alias. *)
Lemma provider_routing_witness :
  snd (run (testAIModel failing_host
              {| tc_provider := "worker-ai"; tc_model := "llama-3-8b";
                 tc_api_key := None; tc_api_url := None |} "ping"))
  = [ CallAI (VStr "@cf/meta/llama-3-8b-instruct")
             [ {| role := "user"; content := "ping" |} ] ].
Proof.
  apply (proj1 (provider_routing failing_host)
           {| tc_provider := "worker-ai"; tc_model := "llama-3-8b";
              tc_api_key := None; tc_api_url := None |} "ping").
  reflexivity.
Defined.
